(** * modul_training.py: metrics of a workout (distance, mean speed, calories)

    A shallow embedding of the module: Python numbers ([int] and [float]) with
    the coercions and the exceptions of their operators, the class hierarchy
    [Training] / [Running] / [SportsWalking] / [Swimming] with its method
    resolution, the dataclass [InfoMessage] with [str.format], and
    [read_package].  Floats are the binary64 floats of the kernel, which are
    the floats of CPython. *)

From stdpp Require Import gmap strings.
From Stdlib Require Import ZArith Floats String Ascii List DecimalString Lia.

Set Warnings "-inexact-float".
Local Open Scope Z_scope.

(** ** Exceptions and results *)

(** The exceptions the module can raise.  [NotModelled] is not a Python
    exception: it marks the places where a general-purpose operation of the
    interpreter is applied outside the fragment that this module exercises
    ([**] at an exponent other than 2, [round] to a negative number of
    digits, a format specifier other than the two the module writes, the
    [repr] of a float, an attribute of a formatted value). *)
Inductive exn : Type :=
  | ZeroDivisionError
  | OverflowError
  | NotImplementedError
  | ValueError (msg : string)
  | TypeError
  | KeyError (key : string)
  | IndexError
  | AttributeError (name : string)
  | NotModelled.

Inductive result (A : Type) : Type :=
  | Ok (a : A)
  | Raise (e : exn).
Arguments Ok {A} a.
Arguments Raise {A} e.

Definition bind {A B : Type} (m : result A) (k : A -> result B) : result B :=
  match m with
  | Ok a => k a
  | Raise e => Raise e
  end.

Notation "'let*' x ':=' m 'in' k" := (bind m (fun x => k))
  (at level 10, x name, m at level 100, k at level 200).

Definition returns {A : Type} (m : result A) : bool :=
  match m with Ok _ => true | Raise _ => false end.

(** ** Numbers *)

(** A Python number as the module meets it: the sensor data are [int]s, the
    constants and the results of [/] are [float]s. *)
Inductive number : Type :=
  | PyInt (n : Z)
  | PyFloat (x : float).

(** [int] to [float] ([PyLong_AsDouble]): the nearest double, ties to even;
    [OverflowError] when that would be an infinity. *)
Definition PyLong_AsDouble (n : Z) : result float :=
  let x := SF2Prim (binary_normalize prec emax n 0 false) in
  if is_infinity x then Raise OverflowError else Ok x.

(** The coercion every float operator applies to its operands. *)
Definition CONVERT_TO_DOUBLE (v : number) : result float :=
  match v with
  | PyFloat x => Ok x
  | PyInt n => PyLong_AsDouble n
  end.

Definition float_mul (v w : number) : result number :=
  let* a := CONVERT_TO_DOUBLE v in
  let* b := CONVERT_TO_DOUBLE w in
  Ok (PyFloat (a * b)).

Definition float_add (v w : number) : result number :=
  let* a := CONVERT_TO_DOUBLE v in
  let* b := CONVERT_TO_DOUBLE w in
  Ok (PyFloat (a + b)).

(** [float.__truediv__]: Python raises on a zero divisor instead of giving an
    infinity or a NaN. *)
Definition float_div (v w : number) : result number :=
  let* a := CONVERT_TO_DOUBLE v in
  let* b := CONVERT_TO_DOUBLE w in
  if (b =? 0)%float then Raise ZeroDivisionError else Ok (PyFloat (a / b)).

(** An integer as an unrounded binary float, exponent 0. *)
Definition SF_of_Z (n : Z) : spec_float :=
  match n with
  | Z0 => S754_zero false
  | Zpos p => S754_finite false p 0
  | Zneg p => S754_finite true p 0
  end.

(** The correctly rounded quotient of two integers, as [int.__truediv__]
    computes it. *)
Definition long_true_divide_value (a b : Z) : float :=
  SF2Prim (SFdiv prec emax (SF_of_Z a) (SF_of_Z b)).

Definition long_true_divide (a b : Z) : result number :=
  if b =? 0 then Raise ZeroDivisionError
  else
    let x := long_true_divide_value a b in
    if is_infinity x then Raise OverflowError else Ok (PyFloat x).

(** The binary operators [*], [+] and [/], dispatched on the operand types. *)
Definition py_mul (v w : number) : result number :=
  match v, w with
  | PyInt a, PyInt b => Ok (PyInt (a * b))
  | _, _ => float_mul v w
  end.

Definition py_add (v w : number) : result number :=
  match v, w with
  | PyInt a, PyInt b => Ok (PyInt (a + b))
  | _, _ => float_add v w
  end.

Definition py_truediv (v w : number) : result number :=
  match v, w with
  | PyInt a, PyInt b => long_true_divide a b
  | _, _ => float_div v w
  end.

(** Whether a computation returns a float equal to [y]. *)
Definition returns_float (r : result number) (y : float) : bool :=
  match r with
  | Ok (PyFloat x) => (x =? y)%float
  | _ => false
  end.

(** "Is zero", as [==] compares a number with [0]. *)
Definition is_zero (v : number) : bool :=
  match v with
  | PyInt n => n =? 0
  | PyFloat x => (x =? 0)%float
  end.

Section Pow.
(** The C library's [pow].  CPython hands [x ** y] on floats to it once the
    special cases are sorted out; how it rounds is the platform's business,
    so it stays a parameter. *)
Variable libm_pow : float -> float -> float.

(** [float.__pow__] at the exponent 2, the only exponent the module uses.
    The special cases come first, in CPython's order; an infinite result of
    [pow] on finite operands is reported as [OverflowError]. *)
Definition float_pow (v w : number) : result number :=
  let* iv := CONVERT_TO_DOUBLE v in
  let* iw := CONVERT_TO_DOUBLE w in
  if negb (iw =? 2)%float then Raise NotModelled
  else if is_nan iv then Ok (PyFloat iv)
  else if is_infinity iv then Ok (PyFloat (abs iv))
  else if (iv =? 0)%float then Ok (PyFloat 0%float)
  else
    let iv := if (iv <? 0)%float then (- iv)%float else iv in
    if (iv =? 1)%float then Ok (PyFloat 1%float)
    else
      let ix := libm_pow iv iw in
      if is_infinity ix then Raise OverflowError else Ok (PyFloat ix).

(** [v ** w]: an exact integer power on two [int]s unless the exponent is
    negative, the float power otherwise. *)
Definition py_pow (v w : number) : result number :=
  match v, w with
  | PyInt a, PyInt b => if b <? 0 then float_pow v w else Ok (PyInt (a ^ b))
  | _, _ => float_pow v w
  end.
End Pow.

(** ** Rounding to a number of decimals *)

(** [num / den] rounded to the nearest integer, ties to even
    ([0 <= num], [0 < den]). *)
Definition div_half_even (num den : Z) : Z :=
  let q := num / den in
  match 2 * (num mod den) ?= den with
  | Lt => q
  | Gt => q + 1
  | Eq => if Z.even q then q else q + 1
  end.

(** The integer nearest to [m * 2^e * 10^ndigits], ties to even: the digits
    that the interpreter's correctly rounded decimal conversion produces for
    the float [m * 2^e] at [ndigits] decimals. *)
Definition decimal_digits (m : positive) (e : Z) (ndigits : Z) : Z :=
  let n := Z.pos m * 10 ^ ndigits in
  if 0 <=? e then n * 2 ^ e else div_half_even n (2 ^ (- e)).

(** [round(x, ndigits)] on a float, for [0 <= ndigits]: the decimal digits
    above, read back as the nearest double.  Zeros, infinities and NaN round
    to themselves, and so does every float when [ndigits] exceeds 323. *)
Definition float_round (x : float) (ndigits : Z) : float :=
  match Prim2SF x with
  | S754_finite s m e =>
      if 323 <? ndigits then x
      else
        let k := decimal_digits m e ndigits in
        let sk := match k with
                  | Z.pos p => S754_finite s p 0
                  | _ => S754_zero s
                  end in
        SF2Prim (SFdiv prec emax sk (SF_of_Z (10 ^ ndigits)))
  | _ => x
  end.

(** The builtin [round] with a second argument.  An [int] rounds to itself
    when [ndigits] is not negative. *)
Definition py_round (v : number) (ndigits : Z) : result number :=
  if ndigits <? 0 then Raise NotModelled
  else
    match v with
    | PyInt n => Ok (PyInt n)
    | PyFloat x => Ok (PyFloat (float_round x ndigits))
    end.

(** ** The classes *)

(** An instance of [Training] or of one of its subclasses, with the
    attributes its [__init__] sets. *)
Inductive training : Type :=
  | Training (action duration weight : number)
  | Running (action duration weight : number)
  | SportsWalking (action duration weight height : number)
  | Swimming (action duration weight lenght_pool count_pool : number).

Definition action (self : training) : number :=
  match self with
  | Training a _ _ | Running a _ _ | SportsWalking a _ _ _
  | Swimming a _ _ _ _ => a
  end.

Definition duration (self : training) : number :=
  match self with
  | Training _ d _ | Running _ d _ | SportsWalking _ d _ _
  | Swimming _ d _ _ _ => d
  end.

Definition weight (self : training) : number :=
  match self with
  | Training _ _ w | Running _ _ w | SportsWalking _ _ w _
  | Swimming _ _ w _ _ => w
  end.

(** [self.__class__.__name__] *)
Definition class_name (self : training) : string :=
  match self with
  | Training _ _ _ => "Training"
  | Running _ _ _ => "Running"
  | SportsWalking _ _ _ _ => "SportsWalking"
  | Swimming _ _ _ _ _ => "Swimming"
  end.

(** Class attributes.  [LEN_STEP] is looked up along the class of [self]:
    [Swimming] overrides the value it would inherit from [Training]. *)
Definition LEN_STEP (self : training) : number :=
  match self with
  | Swimming _ _ _ _ _ => PyFloat 1.38
  | _ => PyFloat 0.65
  end.

(** Annotated [float] in the source, but the object is the [int] 1000. *)
Definition M_IN_KM : number := PyInt 1000.
Definition H_TO_M : number := PyInt 60.

Definition CALORIES_MEAN_SPEED_MULTIPLIER : number := PyInt 18.
Definition CALORIES_MEAN_SPEED_SHIFT : number := PyFloat 1.79.

Definition CALORIES_WEIGHT_MULTIPLIER : number := PyFloat 0.035.
Definition CALORIES_WEIGHT_MULTIPLIER2 : number := PyFloat 0.029.
(** [round(1000 / 3600, 3)], evaluated once in the class body. *)
Definition TRN_TO_MS : number :=
  PyFloat (float_round (long_true_divide_value 1000 3600) 3).
Definition MTR : number := PyInt 100.

Definition const_cal : number := PyFloat 1.1.
Definition const_cal2 : number := PyInt 2.

(** *** Methods *)

Definition Training_get_distance (self : training) : result number :=
  let* steps := py_mul (action self) (LEN_STEP self) in
  py_truediv steps M_IN_KM.

(** No subclass overrides [get_distance]. *)
Definition get_distance (self : training) : result number :=
  Training_get_distance self.

Definition Training_get_mean_speed (self : training) : result number :=
  let* distance := get_distance self in
  py_truediv distance (duration self).

Definition Swimming_get_mean_speed (self : training) : result number :=
  match self with
  | Swimming _ duration _ lenght_pool count_pool =>
      let* lenght := py_mul lenght_pool count_pool in
      let* km := py_truediv lenght M_IN_KM in
      py_truediv km duration
  | _ => Raise (AttributeError "lenght_pool")
  end.

(** [self.get_mean_speed()]: only [Swimming] overrides the method. *)
Definition get_mean_speed (self : training) : result number :=
  match self with
  | Swimming _ _ _ _ _ => Swimming_get_mean_speed self
  | _ => Training_get_mean_speed self
  end.

Definition Training_get_spent_calories (self : training) : result number :=
  Raise NotImplementedError.

(** Operands are evaluated left to right, so the first exception raised is
    the one of the leftmost failing sub-expression. *)
Definition Running_get_spent_calories (self : training) : result number :=
  let* speed := get_mean_speed self in
  let* t1 := py_mul CALORIES_MEAN_SPEED_MULTIPLIER speed in
  let* t2 := py_add t1 CALORIES_MEAN_SPEED_SHIFT in
  let* t3 := py_mul t2 (weight self) in
  let* t4 := py_truediv t3 M_IN_KM in
  let* t5 := py_mul t4 (duration self) in
  py_mul t5 H_TO_M.

Definition Swimming_get_spent_calories (self : training) : result number :=
  let* speed := get_mean_speed self in
  let* t1 := py_add speed const_cal in
  let* t2 := py_mul t1 const_cal2 in
  let* t3 := py_mul t2 (weight self) in
  py_mul t3 (duration self).

Section Methods.
Variable libm_pow : float -> float -> float.

Definition SportsWalking_get_spent_calories (self : training)
  : result number :=
  match self with
  | SportsWalking _ duration weight height =>
      let* t1 := py_mul CALORIES_WEIGHT_MULTIPLIER weight in
      let* speed := get_mean_speed self in
      let* t2 := py_mul speed TRN_TO_MS in
      let* t3 := py_pow libm_pow t2 (PyInt 2) in
      let* t4 := py_truediv height MTR in
      let* t5 := py_truediv t3 t4 in
      let* t6 := py_mul CALORIES_WEIGHT_MULTIPLIER2 weight in
      let* t7 := py_mul t5 t6 in
      let* t8 := py_add t1 t7 in
      let* t9 := py_mul duration H_TO_M in
      py_mul t8 t9
  | _ => Raise (AttributeError "height")
  end.

(** [self.get_spent_calories()], resolved on the class of [self]. *)
Definition get_spent_calories (self : training) : result number :=
  match self with
  | Training _ _ _ => Training_get_spent_calories self
  | Running _ _ _ => Running_get_spent_calories self
  | SportsWalking _ _ _ _ => SportsWalking_get_spent_calories self
  | Swimming _ _ _ _ _ => Swimming_get_spent_calories self
  end.
End Methods.

(** ** Formatting *)

Local Open Scope string_scope.

(** An argument of [str.format]: the fields of an [InfoMessage] are strings
    and numbers. *)
Inductive value : Type :=
  | VStr (s : string)
  | VNum (n : number).

Definition decimal (n : Z) : string := NilZero.string_of_int (Z.to_int n).

Definition digit (d : Z) : ascii := ascii_of_N (48 + Z.to_N d).

(** [k] thousandths in fixed notation: the integer part, a point and exactly
    three decimals; [s] is the sign bit, kept on a zero as well. *)
Definition thousandths (s : bool) (k : Z) : string :=
  (if s then "-" else EmptyString) ++ decimal (k / 1000) ++ "."
  ++ String (digit (k / 100 mod 10))
       (String (digit (k / 10 mod 10)) (String (digit (k mod 10)) EmptyString)).

(** A float under the format specifier [.3f]. *)
Definition format_float_3f (x : float) : string :=
  match Prim2SF x with
  | S754_nan => "nan"
  | S754_infinity s => if s then "-inf" else "inf"
  | S754_zero s => thousandths s 0
  | S754_finite s m e => thousandths s (decimal_digits m e 3)
  end.

(** [format(v, spec)] for the two specifiers the module writes: the empty one
    and [.3f].  The [repr] of a float is not modelled. *)
Definition format_value (v : value) (spec : string) : result string :=
  if String.eqb spec EmptyString then
    match v with
    | VStr s => Ok s
    | VNum (PyInt n) => Ok (decimal n)
    | VNum (PyFloat _) => Raise NotModelled
    end
  else if String.eqb spec ".3f" then
    match v with
    | VStr _ =>
        Raise (ValueError "Unknown format code 'f' for object of type 'str'")
    | VNum (PyInt n) =>
        let* x := PyLong_AsDouble n in Ok (format_float_3f x)
    | VNum (PyFloat x) => Ok (format_float_3f x)
    end
  else Raise NotModelled.

(** The longest prefix of [s] without a character in [stop], and the rest. *)
Fixpoint break (stop : ascii -> bool) (s : string) : string * string :=
  match s with
  | EmptyString => (EmptyString, EmptyString)
  | String c rest =>
      if stop c then (EmptyString, s)
      else let '(l, r) := break stop rest in (String c l, r)
  end.

Definition is_digit (c : ascii) : bool :=
  let n := N_of_ascii c in ((48 <=? n) && (n <=? 57))%N.

Fixpoint all_digits (s : string) : bool :=
  match s with
  | EmptyString => true
  | String c rest => is_digit c && all_digits rest
  end.

(** One replacement field, the text between the braces: a name, then
    attribute accesses, then an optional [:spec].  A missing keyword is a
    [KeyError]; an empty or numeric name asks for a positional argument, and
    [format] is called with none.  Conversions ([!r]), indexing ([[k]]) and
    attributes of the looked-up value are outside the fragment. *)
Definition render_field (kwargs : gmap string value) (field : string)
  : result string :=
  let '(field_name, rest) :=
    break (fun c => Ascii.eqb c ":" || Ascii.eqb c "!") field in
  let '(first, accessors) :=
    break (fun c => Ascii.eqb c "." || Ascii.eqb c "[") field_name in
  if all_digits first then Raise IndexError
  else
    match kwargs !! first with
    | None => Raise (KeyError first)
    | Some v =>
        match accessors, rest with
        | EmptyString, EmptyString => format_value v EmptyString
        | EmptyString, String ":" spec => format_value v spec
        | _, _ => Raise NotModelled
        end
    end.

(** The template ends inside a replacement field of which [field] has been
    read: the complaint depends on whether the format specifier had been
    reached. *)
Definition unclosed_field (field : string) : exn :=
  match snd (break (fun c => Ascii.eqb c ":" || Ascii.eqb c "!"
                             || Ascii.eqb c "[") field) with
  | EmptyString => ValueError "expected '}' before end of string"
  | String ":" _ => ValueError "unmatched '{' in format spec"
  | String _ _ => NotModelled
  end.

(** [str.format] on keyword arguments: one pass over the template, left to
    right.  [field] is [None] in literal text and [Some f] inside a replacement field
    of which [f] has been read.  A field is rendered as soon as its closing
    brace is met, so the exception of the first faulty field wins. *)
Fixpoint format_from (kwargs : gmap string value) (field : option string)
    (template : string) : result string :=
  match field, template with
  | None, EmptyString => Ok EmptyString
  | None, String "{" (String "{" rest) =>
      let* out := format_from kwargs None rest in Ok (String "{" out)
  | None, String "{" EmptyString =>
      Raise (ValueError "Single '{' encountered in format string")
  | None, String "{" rest => format_from kwargs (Some EmptyString) rest
  | None, String "}" (String "}" rest) =>
      let* out := format_from kwargs None rest in Ok (String "}" out)
  | None, String "}" _ =>
      Raise (ValueError "Single '}' encountered in format string")
  | None, String c rest =>
      let* out := format_from kwargs None rest in Ok (String c out)
  | Some f, EmptyString => Raise (unclosed_field f)
  | Some f, String "}" rest =>
      let* text := render_field kwargs f in
      let* out := format_from kwargs None rest in
      Ok (text ++ out)
  | Some f, String "{" _ => Raise NotModelled
  | Some f, String c rest =>
      format_from kwargs (Some (f ++ String c EmptyString)) rest
  end.

Definition str_format (template : string) (kwargs : gmap string value)
  : result string :=
  format_from kwargs None template.

(** *** The dataclass [InfoMessage] *)

Module InfoMessage.
Record t : Type := Build {
  training_type : string;
  duration : number;
  distance : number;
  speed : number;
  calories : number;
  message : string
}.

(** The default value of the field [message]. *)
Definition default_message : string :=
  "Тип тренировки {self.training_type}; "
  ++ "Длительность: {self.duration:.3f} ч.; "
  ++ "Дистанция: {self.distance:.3f} км; "
  ++ "Ср. скорость: {self.speed:.3f} км/ч; "
  ++ "Потрачено ккал: {self.calories:.3f}.".

(** [InfoMessage(training_type, duration, distance, speed, calories)] *)
Definition new (training_type : string)
    (duration distance speed calories : number) : t :=
  Build training_type duration distance speed calories default_message.

(** [dataclasses.asdict]: every field under its name. *)
Definition asdict (self : t) : gmap string value :=
  list_to_map
    [ ("training_type", VStr (training_type self));
      ("duration", VNum (duration self));
      ("distance", VNum (distance self));
      ("speed", VNum (speed self));
      ("calories", VNum (calories self));
      ("message", VStr (message self)) ].

Definition get_message (self : t) : result string :=
  str_format (message self) (asdict self).
End InfoMessage.

Section Program.
Variable libm_pow : float -> float -> float.

(** The arguments of [InfoMessage(...)] are evaluated in order: the
    distance, then the mean speed, then the calories. *)
Definition show_training_info (self : training) : result InfoMessage.t :=
  let* distance := get_distance self in
  let* speed := get_mean_speed self in
  let* calories := get_spent_calories libm_pow self in
  Ok (InfoMessage.new (class_name self) (duration self)
        distance speed calories).

(** [main] prints the field [message] of the info object; the line printed
    is what it returns here. *)
Definition main (training : training) : result string :=
  let* info := show_training_info training in
  Ok (InfoMessage.message info).
End Program.

(** ** Reading a package *)

(** Calling a class with [*data]: the positional arguments must be exactly
    the parameters of its [__init__]. *)
Definition call_Swimming (data : list number) : result training :=
  match data with
  | [action; duration; weight; lenght_pool; count_pool] =>
      Ok (Swimming action duration weight lenght_pool count_pool)
  | _ => Raise TypeError
  end.

Definition call_Running (data : list number) : result training :=
  match data with
  | [action; duration; weight] => Ok (Running action duration weight)
  | _ => Raise TypeError
  end.

Definition call_SportsWalking (data : list number) : result training :=
  match data with
  | [action; duration; weight; height] =>
      Ok (SportsWalking action duration weight height)
  | _ => Raise TypeError
  end.

Definition activites : gmap string (list number -> result training) :=
  <["SWM" := call_Swimming]>
    (<["RUN" := call_Running]> (<["WLK" := call_SportsWalking]> ∅)).

Definition read_package (workout_type : string) (data : list number)
  : result training :=
  match activites !! workout_type with
  | None => Raise (ValueError "Передан неверный идентификатор тренировки.")
  | Some cls => cls data
  end.

(** A C library whose [pow(x, 2.0)] is the correctly rounded square; it
    instantiates the parameter where a concrete run is evaluated.  The [pow]
    of a given platform may differ from it by one unit in the last place on
    some inputs, which is why the properties are stated for every
    [libm_pow]. *)
Definition exact_square (x y : float) : float := (x * x)%float.

(** ** The attributes of an instance *)

(** [vars(self)]: the attributes of an instance, in the order in which the
    [__init__] of its class assigns them ([Training.__init__] first, through
    [super()], then the attributes of the subclass). *)
Definition vars (self : training) : list (string * number) :=
  match self with
  | Training action duration weight | Running action duration weight =>
      [("action", action); ("duration", duration); ("weight", weight)]
  | SportsWalking action duration weight height =>
      [("action", action); ("duration", duration); ("weight", weight);
       ("height", height)]
  | Swimming action duration weight lenght_pool count_pool =>
      [("action", action); ("duration", duration); ("weight", weight);
       ("lenght_pool", lenght_pool); ("count_pool", count_pool)]
  end.

(** ** The script *)

Section Script.
Variable libm_pow : float -> float -> float.

(** The loop of the [__main__] block, over any list of packages: each
    package is read and handed to [main], which prints one line.  The result
    is the lines printed and the exception that ended the run, if one did;
    nothing catches it, so the packages after it are not looked at. *)
Fixpoint run_packages (packages : list (string * list number))
  : list string * option exn :=
  match packages with
  | [] => ([], None)
  | (workout_type, data) :: rest =>
      match (let* training := read_package workout_type data in
             main libm_pow training) with
      | Ok line => let '(out, e) := run_packages rest in (line :: out, e)
      | Raise e => ([], Some e)
      end
  end.
End Script.

(** The packages of the [__main__] block. *)
Definition packages : list (string * list number) :=
  [ ("SWM", [PyInt 720; PyInt 1; PyInt 80; PyInt 25; PyInt 40]);
    ("RUN", [PyInt 15000; PyInt 1; PyInt 75]);
    ("WLK", [PyInt 9000; PyInt 1; PyInt 75; PyInt 180]) ].

(** * Properties *)

(** ** Numbers *)

Lemma bind_Ok {A B : Type} (a : A) (k : A -> result B) :
  bind (Ok a) k = k a.
Proof. reflexivity. Qed.

Lemma bind_Raise {A B : Type} (e : exn) (k : A -> result B) :
  bind (Raise e) k = Raise e.
Proof. reflexivity. Qed.

(** The integer constants of the module convert exactly. *)
Lemma PyLong_AsDouble_1000 : PyLong_AsDouble 1000 = Ok 1000%float.
Proof. vm_compute. reflexivity. Qed.

Lemma PyLong_AsDouble_100 : PyLong_AsDouble 100 = Ok 100%float.
Proof. vm_compute. reflexivity. Qed.

Lemma PyLong_AsDouble_60 : PyLong_AsDouble 60 = Ok 60%float.
Proof. vm_compute. reflexivity. Qed.

Lemma PyLong_AsDouble_18 : PyLong_AsDouble 18 = Ok 18%float.
Proof. vm_compute. reflexivity. Qed.

Lemma PyLong_AsDouble_2 : PyLong_AsDouble 2 = Ok 2%float.
Proof. vm_compute. reflexivity. Qed.

Lemma PyLong_AsDouble_0 : PyLong_AsDouble 0 = Ok 0%float.
Proof. vm_compute. reflexivity. Qed.

(** A float literal of the source is the double nearest to its decimal
    value, which is also what dividing the two integers gives. *)
Lemma literals_are_nearest_doubles :
  0.65%float = long_true_divide_value 65 100
  /\ 1.38%float = long_true_divide_value 138 100
  /\ 1.79%float = long_true_divide_value 179 100
  /\ 0.035%float = long_true_divide_value 35 1000
  /\ 0.029%float = long_true_divide_value 29 1000
  /\ 1.1%float = long_true_divide_value 11 10.
Proof. vm_compute. repeat split. Qed.

(** ** Rounding to binary64

    What the conversions and the integer division need from the rounding
    of the specification floats: a positive mantissa above the underflow
    threshold rounds to a valid float that is not a zero. *)

(** The canonical exponent of binary64, ready for [lia]. *)
Lemma fexp_eq (z : Z) : fexp prec emax z = Z.max (z - 53) (-1074).
Proof. reflexivity. Qed.

(** The number of binary digits is the base-2 logarithm plus one. *)
Lemma digits2_pos_size (p : positive) : digits2_pos p = Pos.size p.
Proof. induction p as [p IH|p IH|]; simpl; rewrite ?IH; reflexivity. Qed.

Lemma Zdigits2_log2 (m : Z) : 0 < m -> Zdigits2 m = Z.log2 m + 1.
Proof.
  destruct m as [|p|p]; try lia. intros _. simpl Zdigits2.
  rewrite digits2_pos_size. destruct p; simpl; lia.
Qed.

(** Shifting the rounding record right halves its mantissa. *)
Lemma shr_1_m (mrs : shr_record) :
  0 <= shr_m mrs -> shr_m (shr_1 mrs) = Z.div2 (shr_m mrs).
Proof.
  destruct mrs as [m r s]. simpl.
  destruct m as [|[p|p|]|p]; simpl; try reflexivity; lia.
Qed.

Lemma iter_pos_shr_1_m (p : positive) : forall mrs : shr_record,
  0 <= shr_m mrs ->
  shr_m (iter_pos shr_1 p mrs) = Z.shiftr (shr_m mrs) (Z.pos p).
Proof.
  assert (Hstep : forall mrs, 0 <= shr_m mrs -> 0 <= shr_m (shr_1 mrs)).
  { intros mrs Hm. rewrite shr_1_m, Z.div2_spec by exact Hm.
    apply Z.shiftr_nonneg. exact Hm. }
  induction p as [p IH|p IH|]; intros mrs Hm; simpl iter_pos.
  - assert (H2 : 0 <= shr_m (iter_pos shr_1 p (shr_1 mrs))).
    { rewrite IH by auto. apply Z.shiftr_nonneg. auto. }
    rewrite IH by exact H2. rewrite IH by auto.
    rewrite shr_1_m by exact Hm.
    rewrite Z.div2_spec, !Z.shiftr_shiftr by lia. f_equal. lia.
  - assert (H2 : 0 <= shr_m (iter_pos shr_1 p mrs)).
    { rewrite IH by exact Hm. apply Z.shiftr_nonneg. exact Hm. }
    rewrite IH by exact H2. rewrite IH by exact Hm.
    rewrite Z.shiftr_shiftr by lia. f_equal. lia.
  - rewrite shr_1_m by exact Hm. apply Z.div2_spec.
Qed.

(** [shr_fexp] leaves the mantissa alone when it is at its canonical
    exponent or above, and shifts it down to that exponent otherwise. *)
Lemma shr_fexp_spec (m e : Z) (l : location) (mrs : shr_record) (e' : Z) :
  0 < m ->
  shr_fexp prec emax m e l = (mrs, e') ->
  let n := fexp prec emax (Zdigits2 m + e) - e in
  (n <= 0 /\ shr_m mrs = m /\ e' = e)
  \/ (0 < n /\ shr_m mrs = Z.shiftr m n /\ e' = e + n).
Proof.
  intros Hm Hshr n. unfold shr_fexp in Hshr. fold n in Hshr.
  assert (Hloc : shr_m (shr_record_of_loc m l) = m)
    by (destruct l as [|[| |]]; reflexivity).
  unfold shr in Hshr. destruct n as [|p|p] eqn:Hn.
  - left. injection Hshr as <- <-. repeat split; [lia|exact Hloc].
  - right. injection Hshr as <- <-. split; [lia|]. split; [|reflexivity].
    rewrite iter_pos_shr_1_m by lia. rewrite Hloc. reflexivity.
  - left. injection Hshr as <- <-. repeat split; [lia|exact Hloc].
Qed.

Lemma shiftr_pos_log2 (m n : Z) :
  0 < m -> 0 <= n <= Z.log2 m ->
  0 < Z.shiftr m n /\ Z.log2 (Z.shiftr m n) = Z.log2 m - n.
Proof.
  intros Hm Hn. split.
  - rewrite Z.shiftr_div_pow2 by lia.
    apply Z.div_str_pos. split; [apply Z.pow_pos_nonneg; lia|].
    pose proof (Z.log2_spec m Hm) as [Hlo _].
    apply Z.le_trans with (2 ^ Z.log2 m); [|exact Hlo].
    apply Z.pow_le_mono_r; lia.
  - rewrite Z.log2_shiftr by exact Hm. lia.
Qed.

Lemma round_nearest_even_bounds (m : Z) (l : location) :
  m <= round_nearest_even m l <= m + 1.
Proof.
  destruct l as [|[| |]]; simpl; try lia. destruct (Z.even m); lia.
Qed.

(** One shift of [binary_round_aux]: a positive mantissa whose canonical
    exponent is [e] or more, above the underflow threshold, stays positive
    and lands exactly on its canonical exponent. *)
Lemma shr_fexp_canonical (m e : Z) (l : location) (mrs : shr_record)
    (e' : Z) :
  0 < m ->
  e <= fexp prec emax (Z.log2 m + 1 + e) ->
  -1074 < Z.log2 m + 1 + e ->
  shr_fexp prec emax m e l = (mrs, e') ->
  0 < shr_m mrs /\ fexp prec emax (Z.log2 (shr_m mrs) + 1 + e') = e'.
Proof.
  intros Hm Hcan Hmin Hshr. apply shr_fexp_spec in Hshr; [|exact Hm].
  rewrite (Zdigits2_log2 m Hm) in Hshr. rewrite !fexp_eq in *.
  destruct Hshr as [(Hn & -> & ->)|(Hn & -> & ->)].
  - split; [exact Hm|lia].
  - destruct (shiftr_pos_log2 m
                (Z.max (Z.log2 m + 1 + e - 53) (-1074) - e) Hm)
      as [Hpos Hlog]; [lia|].
    split; [exact Hpos|]. rewrite Hlog. lia.
Qed.

(** Rounding a positive mantissa that sits at or below its canonical
    exponent, and above the underflow threshold, gives a valid float that
    is not a zero. *)
Lemma binary_round_aux_valid_nonzero
    (sx : bool) (mx ex : Z) (lx : location) :
  0 < mx ->
  ex <= fexp prec emax (Zdigits2 mx + ex) ->
  emin < Zdigits2 mx + ex ->
  valid_binary (binary_round_aux prec emax sx mx ex lx) = true
  /\ forall s, binary_round_aux prec emax sx mx ex lx <> S754_zero s.
Proof.
  intros Hmx Hcan Hmin. change emin with (-1074) in Hmin.
  rewrite (Zdigits2_log2 mx Hmx) in Hcan, Hmin.
  unfold binary_round_aux.
  destruct (shr_fexp prec emax mx ex lx) as [mrs1 e1] eqn:E1.
  destruct (shr_fexp_canonical _ _ _ _ _ Hmx Hcan Hmin E1) as [Hm1 Hcan1].
  set (m1 := shr_m mrs1) in *.
  pose proof (round_nearest_even_bounds m1 (loc_of_shr_record mrs1)) as Hr.
  set (m2 := round_nearest_even m1 (loc_of_shr_record mrs1)) in *.
  assert (Hm2 : 0 < m2) by lia.
  assert (Hlog2 : Z.log2 m1 <= Z.log2 m2 <= Z.log2 m1 + 1).
  { split; [apply Z.log2_le_mono; lia|].
    apply Z.le_trans with (Z.log2 (Z.succ m1));
      [apply Z.log2_le_mono; lia|apply Z.log2_succ_le]. }
  destruct (shr_fexp prec emax m2 e1 loc_Exact) as [mrs3 e3] eqn:E3.
  assert (H3 : 0 < shr_m mrs3
               /\ fexp prec emax (Z.log2 (shr_m mrs3) + 1 + e3) = e3).
  { pose proof (Z.log2_nonneg m1) as Hnn.
    apply (shr_fexp_canonical m2 e1 loc_Exact); [exact Hm2| | |exact E3];
      rewrite ?fexp_eq in *; lia. }
  destruct H3 as [Hm3 Hcan3].
  destruct (shr_m mrs3) as [|p|p] eqn:Ep; try lia.
  destruct (e3 <=? emax - prec)%Z eqn:Ele.
  - split; [|discriminate]. simpl. unfold bounded, canonical_mantissa.
    rewrite Ele, andb_true_r. apply Z.eqb_eq.
    rewrite <- Hcan3 at 2. f_equal.
    change (Z.pos (digits2_pos p)) with (Zdigits2 (Z.pos p)).
    rewrite Zdigits2_log2 by lia. reflexivity.
  - split; [reflexivity|discriminate].
Qed.

Lemma Pos_iter_xO (m d : positive) :
  Z.pos (Pos.iter xO m d) = Z.pos m * 2 ^ Z.pos d.
Proof.
  revert m. induction d as [|d IH] using Pos.peano_ind; intros m.
  - simpl. lia.
  - rewrite Pos.iter_succ, Pos2Z.inj_succ, Z.pow_succ_r by lia.
    change (Z.pos (Pos.iter xO m d)~0) with (2 * Z.pos (Pos.iter xO m d)).
    rewrite IH. lia.
Qed.

(** Rounding an integer mantissa at an exponent above the underflow
    threshold. *)
Lemma binary_round_valid_nonzero (sx : bool) (mx : positive) (ex : Z) :
  emin < Zdigits2 (Z.pos mx) + ex ->
  valid_binary (binary_round prec emax sx mx ex) = true
  /\ forall s, binary_round prec emax sx mx ex <> S754_zero s.
Proof.
  intros Hmin. unfold binary_round, shl_align.
  change (Z.pos (digits2_pos mx)) with (Zdigits2 (Z.pos mx)).
  change emin with (-1074) in Hmin.
  destruct (fexp prec emax (Zdigits2 (Z.pos mx) + ex) - ex) as [|d|d] eqn:Hd;
    try (apply binary_round_aux_valid_nonzero;
         [lia|lia|change emin with (-1074); exact Hmin]).
  assert (Hpow : 0 < 2 ^ Z.pos d) by (apply Z.pow_pos_nonneg; lia).
  assert (Hpos : 0 < Z.pos mx * 2 ^ Z.pos d) by (apply Z.mul_pos_pos; lia).
  rewrite Zdigits2_log2 in Hd, Hmin by lia. rewrite fexp_eq in Hd.
  apply binary_round_aux_valid_nonzero; rewrite Pos_iter_xO;
    [exact Hpos| |];
    rewrite !Zdigits2_log2, Z.log2_mul_pow2 by lia;
    rewrite ?fexp_eq; change emin with (-1074); lia.
Qed.

(** A valid float that is not a zero does not compare equal to zero. *)
Lemma SF2Prim_nonzero (f : spec_float) :
  valid_binary f = true -> (forall s, f <> S754_zero s) ->
  (SF2Prim f =? 0)%float = false.
Proof.
  intros Hvalid Hnz.
  rewrite FloatAxioms.eqb_spec, Prim2SF_SF2Prim by exact Hvalid.
  change (Prim2SF 0) with (S754_zero false).
  destruct f as [s|[|]| |[|] m e]; try reflexivity.
  exfalso. exact (Hnz s eq_refl).
Qed.

Lemma binary_normalize_nonzero (n : Z) :
  n <> 0 ->
  (SF2Prim (binary_normalize prec emax n 0 false) =? 0)%float = false.
Proof.
  intros Hn. apply SF2Prim_nonzero; destruct n as [|p|p]; try contradiction;
    simpl binary_normalize; apply binary_round_valid_nonzero;
    change emin with (-1074); rewrite Zdigits2_log2 by lia;
    pose proof (Z.log2_nonneg (Z.pos p)); lia.
Qed.

(** The core of the division of two integer mantissas: when the divisor is
    below [2^1074] the quotient handed to the rounding is positive, at or
    below its canonical exponent and above the underflow threshold. *)
Lemma SFdiv_core_binary_spec (m1 m2 : positive) :
  Z.log2 (Z.pos m2) < 1074 ->
  let '(q, e, l) := SFdiv_core_binary prec emax (Z.pos m1) 0 (Z.pos m2) 0 in
  0 < q /\ e <= fexp prec emax (Zdigits2 q + e) /\ emin < Zdigits2 q + e.
Proof.
  intros Hm2. unfold SFdiv_core_binary.
  rewrite !Zdigits2_log2, !fexp_eq by lia.
  set (L1 := Z.log2 (Z.pos m1)). set (L2 := Z.log2 (Z.pos m2)).
  pose proof (Z.log2_nonneg (Z.pos m1)) as HL1. fold L1 in HL1.
  pose proof (Z.log2_nonneg (Z.pos m2)) as HL2. fold L2 in HL2, Hm2.
  change (IntDef.Z.min ?a ?b) with (Z.min a b).
  change (IntDef.Z.sub ?a ?b) with (Z.sub a b).
  change (IntDef.Z.add ?a ?b) with (Z.add a b).
  rewrite !Z.add_0_r, !Z.sub_0_r, !Z.sub_0_l.
  set (e := Z.min (Z.max (L1 + 1 - (L2 + 1) - 53) (-1074)) 0).
  set (m := match - e with
            | Z0 => Z.pos m1
            | Z.pos _ => Z.shiftl (Z.pos m1) (- e)
            | Z.neg _ => 0
            end).
  assert (Hm : m = Z.pos m1 * 2 ^ (- e)).
  { unfold m. destruct (- e) as [|p|p] eqn:He; [lia| |lia].
    rewrite Z.shiftl_mul_pow2 by lia. reflexivity. }
  clearbody m.
  assert (Hlog : Z.log2 m = L1 - e).
  { rewrite Hm, Z.log2_mul_pow2 by lia. lia. }
  assert (Hmpos : 0 < m).
  { rewrite Hm. apply Z.mul_pos_pos; [lia|apply Z.pow_pos_nonneg; lia]. }
  destruct (Z.div_eucl m (Z.pos m2)) as [q r] eqn:Hdiv.
  assert (Hq : q = m / Z.pos m2) by (unfold Z.div; rewrite Hdiv; reflexivity).
  assert (Hlow : 2 ^ (L1 - e - L2 - 1) <= q).
  { rewrite Hq. apply Z.div_le_lower_bound; [lia|].
    pose proof (Z.log2_spec m Hmpos) as [Hlo _]. rewrite Hlog in Hlo.
    pose proof (Z.log2_spec (Z.pos m2) ltac:(lia)) as [_ Hhi]. fold L2 in Hhi.
    apply Z.le_trans with (2 ^ (L1 - e)); [|exact Hlo].
    replace (L1 - e) with (Z.succ L2 + (L1 - e - L2 - 1)) at 2 by lia.
    rewrite Z.pow_add_r by lia.
    apply Z.mul_le_mono_nonneg_r; [apply Z.pow_nonneg; lia|lia]. }
  assert (Hqpos : 0 < q).
  { apply Z.lt_le_trans with (2 ^ (L1 - e - L2 - 1)); [|exact Hlow].
    apply Z.pow_pos_nonneg; lia. }
  assert (Hlogq : L1 - e - L2 - 1 <= Z.log2 q).
  { rewrite <- (Z.log2_pow2 (L1 - e - L2 - 1)) by lia.
    apply Z.log2_le_mono. exact Hlow. }
  rewrite Zdigits2_log2 by exact Hqpos. change emin with (-1074).
  rewrite fexp_eq. lia.
Qed.

(** A non-zero [int] converts to a non-zero float. *)
Lemma PyLong_AsDouble_nonzero (n : Z) (t : float) :
  n <> 0 -> PyLong_AsDouble n = Ok t -> (t =? 0)%float = false.
Proof.
  intros Hn. unfold PyLong_AsDouble.
  destruct (is_infinity _); [discriminate|].
  intros H. injection H as <-. apply binary_normalize_nonzero. exact Hn.
Qed.

(** The quotient of a non-zero [int] by an [int] below [2^1074] is not
    zero: integer division underflows only on larger divisors. *)
Lemma long_true_divide_nonzero (a b : Z) (x : float) :
  a <> 0 -> Z.log2 (Z.abs b) < 1074 ->
  long_true_divide a b = Ok (PyFloat x) -> (x =? 0)%float = false.
Proof.
  intros Ha Hb. unfold long_true_divide.
  destruct (b =? 0)%Z eqn:Hb0; [discriminate|]. apply Z.eqb_neq in Hb0.
  destruct (is_infinity _); [discriminate|].
  intros H. injection H as <-. unfold long_true_divide_value.
  apply SF2Prim_nonzero;
    destruct a as [|pa|pa], b as [|pb|pb]; try contradiction;
    simpl SF_of_Z; unfold SFdiv;
    pose proof (SFdiv_core_binary_spec pa pb Hb) as Hcore;
    destruct (SFdiv_core_binary prec emax (Z.pos pa) 0 (Z.pos pb) 0)
      as [[q e] l];
    destruct Hcore as (Hq & Hcan & Hmin);
    apply binary_round_aux_valid_nonzero; assumption.
Qed.

(** A number that is not zero converts to a float that is not zero. *)
Lemma nonzero_CONVERT_TO_DOUBLE (v : number) (t : float) :
  is_zero v = false -> CONVERT_TO_DOUBLE v = Ok t -> (t =? 0)%float = false.
Proof.
  destruct v as [n|x]; simpl; intros Hz Ht.
  - apply (PyLong_AsDouble_nonzero n); [|exact Ht].
    apply Z.eqb_neq. exact Hz.
  - injection Ht as <-. exact Hz.
Qed.

(** The height of an [int] number of centimetres, in metres, is zero only
    if the height is. *)
Lemma height_in_metres_nonzero (h : Z) (hm : float) :
  h <> 0 -> py_truediv (PyInt h) MTR = Ok (PyFloat hm) ->
  (hm =? 0)%float = false.
Proof.
  intros Hh Hdiv.
  apply (long_true_divide_nonzero h 100); [exact Hh| |exact Hdiv].
  vm_compute. reflexivity.
Qed.

(** Multiplying by a float goes through the float path whatever the other
    operand is. *)
Lemma py_mul_float_r (v : number) (y : float) :
  py_mul v (PyFloat y) =
  let* a := CONVERT_TO_DOUBLE v in Ok (PyFloat (a * y)).
Proof. destruct v; reflexivity. Qed.

Lemma py_mul_float_l (x : float) (w : number) :
  py_mul (PyFloat x) w =
  let* b := CONVERT_TO_DOUBLE w in Ok (PyFloat (x * b)).
Proof. destruct w; reflexivity. Qed.

Lemma py_add_float_l (x : float) (w : number) :
  py_add (PyFloat x) w =
  let* b := CONVERT_TO_DOUBLE w in Ok (PyFloat (x + b)).
Proof. destruct w; reflexivity. Qed.

Lemma py_truediv_float_l (x : float) (w : number) :
  py_truediv (PyFloat x) w =
  let* b := CONVERT_TO_DOUBLE w in
  if (b =? 0)%float then Raise ZeroDivisionError else Ok (PyFloat (x / b)).
Proof. destruct w; reflexivity. Qed.

(** Dividing a float by one of the non-zero integer constants never
    raises. *)
Lemma py_truediv_M_IN_KM (x : float) :
  py_truediv (PyFloat x) M_IN_KM = Ok (PyFloat (x / 1000)).
Proof.
  unfold M_IN_KM. rewrite py_truediv_float_l. simpl CONVERT_TO_DOUBLE.
  rewrite PyLong_AsDouble_1000. reflexivity.
Qed.

(** Squaring a float: the special cases of [float.__pow__], then the C
    library on the absolute value, an infinite result being an overflow. *)
Lemma py_pow_2_eq (libm_pow : float -> float -> float) (x : float) :
  py_pow libm_pow (PyFloat x) (PyInt 2) =
  if is_nan x then Ok (PyFloat x)
  else if is_infinity x then Ok (PyFloat (abs x))
  else if (x =? 0)%float then Ok (PyFloat 0%float)
  else
    let ax := if (x <? 0)%float then (- x)%float else x in
    if (ax =? 1)%float then Ok (PyFloat 1%float)
    else if is_infinity (libm_pow ax 2%float) then Raise OverflowError
         else Ok (PyFloat (libm_pow ax 2%float)).
Proof.
  unfold py_pow, float_pow. simpl CONVERT_TO_DOUBLE.
  rewrite PyLong_AsDouble_2, !bind_Ok. reflexivity.
Qed.

(** ** The distance *)

(** [get_distance] in closed form: the action as a float, times the step of
    the class, over 1000.  The only way to fail is an [int] action too large
    for a float. *)
Lemma get_distance_eq (self : training) :
  get_distance self =
  let* a := CONVERT_TO_DOUBLE (action self) in
  Ok (PyFloat (a * match self with
                   | Swimming _ _ _ _ _ => 1.38
                   | _ => 0.65
                   end / 1000)).
Proof.
  unfold get_distance, Training_get_distance.
  destruct self as [a d w|a d w|a d w h|a d w lp cp];
    unfold LEN_STEP; rewrite py_mul_float_r; simpl action;
    (destruct (CONVERT_TO_DOUBLE a) as [x|e]; [|reflexivity]);
    rewrite !bind_Ok; apply py_truediv_M_IN_KM.
Qed.

(** C1.  For a workout of each of the three variants, [get_distance] returns
    [action * LEN_STEP / 1000], where the step is 0.65 for [Running] and
    [SportsWalking] and 1.38 for [Swimming]; the product and the quotient are
    those of floats, the action being converted first. *)
Theorem get_distance_is_action_times_step_over_1000 :
  (forall action duration weight,
     get_distance (Running action duration weight) =
     let* a := CONVERT_TO_DOUBLE action in Ok (PyFloat (a * 0.65 / 1000)))
  /\ (forall action duration weight height,
        get_distance (SportsWalking action duration weight height) =
        let* a := CONVERT_TO_DOUBLE action in Ok (PyFloat (a * 0.65 / 1000)))
  /\ (forall action duration weight lenght_pool count_pool,
        get_distance
          (Swimming action duration weight lenght_pool count_pool) =
        let* a := CONVERT_TO_DOUBLE action in Ok (PyFloat (a * 1.38 / 1000))).
Proof.
  repeat split; intros; rewrite get_distance_eq; reflexivity.
Qed.

(** ** The mean speed *)

(** The inherited [get_mean_speed] in closed form: it fails on an [int] too
    large for a float and on a zero duration, and on nothing else. *)
Lemma Training_get_mean_speed_eq (self : training) :
  Training_get_mean_speed self =
  let* a := CONVERT_TO_DOUBLE (action self) in
  let* t := CONVERT_TO_DOUBLE (duration self) in
  if (t =? 0)%float then Raise ZeroDivisionError
  else Ok (PyFloat (a * match self with
                        | Swimming _ _ _ _ _ => 1.38
                        | _ => 0.65
                        end / 1000 / t)).
Proof.
  unfold Training_get_mean_speed. rewrite get_distance_eq.
  destruct (CONVERT_TO_DOUBLE (action self)) as [a|e]; [|reflexivity].
  rewrite !bind_Ok. apply py_truediv_float_l.
Qed.

Lemma Training_get_mean_speed_returns (self : training) (d t : float) :
  get_distance self = Ok (PyFloat d) ->
  CONVERT_TO_DOUBLE (duration self) = Ok t ->
  (t =? 0)%float = false ->
  Training_get_mean_speed self = Ok (PyFloat (d / t)).
Proof.
  intros Hd Ht Hnz. unfold Training_get_mean_speed.
  rewrite Hd, bind_Ok, py_truediv_float_l, Ht, bind_Ok, Hnz. reflexivity.
Qed.

(** The override of [Swimming]: the action and the step play no part. *)
Lemma Swimming_get_mean_speed_returns
    (action duration weight lenght_pool count_pool lenght : number)
    (km t : float) :
  py_mul lenght_pool count_pool = Ok lenght ->
  py_truediv lenght M_IN_KM = Ok (PyFloat km) ->
  CONVERT_TO_DOUBLE duration = Ok t ->
  (t =? 0)%float = false ->
  get_mean_speed (Swimming action duration weight lenght_pool count_pool) =
  Ok (PyFloat (km / t)).
Proof.
  intros Hl Hkm Ht Hnz. simpl. rewrite Hl, bind_Ok, Hkm, bind_Ok.
  rewrite py_truediv_float_l, Ht. simpl. rewrite Hnz. reflexivity.
Qed.

(** C2.  With a duration that is not zero, [get_mean_speed] of a [Running]
    or [SportsWalking] workout returns its distance over the duration; that
    of a [Swimming] workout returns [lenght_pool * count_pool / 1000] over
    the duration instead, whatever the action is. *)
Theorem get_mean_speed_generic_and_swimming :
  (forall action duration weight d t,
     is_zero duration = false ->
     get_distance (Running action duration weight) = Ok (PyFloat d) ->
     CONVERT_TO_DOUBLE duration = Ok t ->
     get_mean_speed (Running action duration weight) = Ok (PyFloat (d / t)))
  /\ (forall action duration weight height d t,
        is_zero duration = false ->
        get_distance (SportsWalking action duration weight height) =
          Ok (PyFloat d) ->
        CONVERT_TO_DOUBLE duration = Ok t ->
        get_mean_speed (SportsWalking action duration weight height) =
          Ok (PyFloat (d / t)))
  /\ (forall action duration weight lenght_pool count_pool lenght km t,
        is_zero duration = false ->
        py_mul lenght_pool count_pool = Ok lenght ->
        py_truediv lenght (PyInt 1000) = Ok (PyFloat km) ->
        CONVERT_TO_DOUBLE duration = Ok t ->
        get_mean_speed
          (Swimming action duration weight lenght_pool count_pool) =
          Ok (PyFloat (km / t)))
  /\ (forall action action' duration weight lenght_pool count_pool,
        get_mean_speed
          (Swimming action duration weight lenght_pool count_pool) =
        get_mean_speed
          (Swimming action' duration weight lenght_pool count_pool)).
Proof.
  split; [|split; [|split]].
  - intros action duration weight d t Hz Hd Ht.
    exact (Training_get_mean_speed_returns
             (Running action duration weight) d t Hd Ht
             (nonzero_CONVERT_TO_DOUBLE _ _ Hz Ht)).
  - intros action duration weight height d t Hz Hd Ht.
    exact (Training_get_mean_speed_returns
             (SportsWalking action duration weight height) d t Hd Ht
             (nonzero_CONVERT_TO_DOUBLE _ _ Hz Ht)).
  - intros action duration weight lenght_pool count_pool lenght km t
      Hz Hl Hkm Ht.
    exact (Swimming_get_mean_speed_returns action duration weight
             lenght_pool count_pool lenght km t Hl Hkm Ht
             (nonzero_CONVERT_TO_DOUBLE _ _ Hz Ht)).
  - reflexivity.
Qed.

(** A run of C2 on the sample packages of the module. *)
Lemma get_mean_speed_generic_and_swimming_witness :
  get_mean_speed (Running (PyInt 15000) (PyInt 1) (PyInt 75)) =
    Ok (PyFloat (9.75 / 1))
  /\ get_mean_speed
       (SportsWalking (PyInt 9000) (PyInt 1) (PyInt 75) (PyInt 180)) =
       Ok (PyFloat (5.85 / 1))
  /\ get_mean_speed
       (Swimming (PyInt 720) (PyInt 1) (PyInt 80) (PyInt 25) (PyInt 40)) =
       Ok (PyFloat (1 / 1)).
Proof.
  destruct get_mean_speed_generic_and_swimming as (Hrun & Hwlk & Hswm & _).
  split; [|split].
  - apply Hrun; vm_compute; reflexivity.
  - apply Hwlk; vm_compute; reflexivity.
  - apply (Hswm _ _ _ _ _ (PyInt 1000)); vm_compute; reflexivity.
Defined.

(** ** The calories *)

Lemma TRN_TO_MS_value : TRN_TO_MS = PyFloat 0.278.
Proof. vm_compute. reflexivity. Qed.

(** The class body of [SportsWalking] evaluates [round(1000 / 3600, 3)]
    without raising, to the value of the attribute. *)
Lemma TRN_TO_MS_class_body :
  (let* q := py_truediv (PyInt 1000) (PyInt 3600) in py_round q 3) =
  Ok TRN_TO_MS.
Proof. vm_compute. reflexivity. Qed.

Lemma Running_get_spent_calories_returns
    (self : training) (ms wt t : float) :
  get_mean_speed self = Ok (PyFloat ms) ->
  CONVERT_TO_DOUBLE (weight self) = Ok wt ->
  CONVERT_TO_DOUBLE (duration self) = Ok t ->
  Running_get_spent_calories self =
  Ok (PyFloat ((18 * ms + 1.79) * wt / 1000 * t * 60)).
Proof.
  intros Hms Hw Ht. unfold Running_get_spent_calories.
  rewrite Hms, bind_Ok.
  unfold CALORIES_MEAN_SPEED_MULTIPLIER, CALORIES_MEAN_SPEED_SHIFT, H_TO_M.
  rewrite py_mul_float_r. simpl CONVERT_TO_DOUBLE.
  rewrite PyLong_AsDouble_18, !bind_Ok, py_add_float_l. simpl CONVERT_TO_DOUBLE.
  rewrite !bind_Ok, py_mul_float_l, Hw, !bind_Ok.
  rewrite py_truediv_M_IN_KM, bind_Ok, py_mul_float_l.
  rewrite Ht, !bind_Ok, py_mul_float_l. simpl CONVERT_TO_DOUBLE.
  rewrite PyLong_AsDouble_60. reflexivity.
Qed.

(** C3.  For a [Running] workout with a duration that is not zero,
    [get_spent_calories] returns
    [(18 * speed + 1.79) * weight / 1000 * duration * 60], where [speed] is
    what [get_mean_speed] returns. *)
Theorem Running_get_spent_calories_formula
    (libm_pow : float -> float -> float)
    (action duration weight : number) (a t wt : float) :
  is_zero duration = false ->
  CONVERT_TO_DOUBLE action = Ok a ->
  CONVERT_TO_DOUBLE duration = Ok t ->
  CONVERT_TO_DOUBLE weight = Ok wt ->
  exists ms : float,
    get_mean_speed (Running action duration weight) = Ok (PyFloat ms)
    /\ get_spent_calories libm_pow (Running action duration weight) =
       Ok (PyFloat ((18 * ms + 1.79) * wt / 1000 * t * 60)).
Proof.
  intros Hz Ha Ht Hw.
  pose proof (nonzero_CONVERT_TO_DOUBLE _ _ Hz Ht) as Hnz.
  assert (Hms : get_mean_speed (Running action duration weight) =
                Ok (PyFloat (a * 0.65 / 1000 / t))).
  { apply Training_get_mean_speed_returns; [|exact Ht|exact Hnz].
    rewrite get_distance_eq. simpl. rewrite Ha. reflexivity. }
  exists (a * 0.65 / 1000 / t)%float. split; [exact Hms|].
  exact (Running_get_spent_calories_returns _ _ _ _ Hms Hw Ht).
Qed.

(** C3 on the second sample package. *)
Lemma Running_get_spent_calories_formula_witness :
  get_mean_speed (Running (PyInt 15000) (PyInt 1) (PyInt 75)) =
    Ok (PyFloat 9.75)
  /\ get_spent_calories exact_square
       (Running (PyInt 15000) (PyInt 1) (PyInt 75)) =
     Ok (PyFloat ((18 * 9.75 + 1.79) * 75 / 1000 * 1 * 60)).
Proof.
  destruct (Running_get_spent_calories_formula exact_square
              (PyInt 15000) (PyInt 1) (PyInt 75) 15000 1 75)
    as (ms & Hms & Hcal); try (vm_compute; reflexivity).
  assert (Hspeed : get_mean_speed (Running (PyInt 15000) (PyInt 1) (PyInt 75))
                   = Ok (PyFloat 9.75)) by (vm_compute; reflexivity).
  rewrite Hspeed in Hms. injection Hms as <-.
  split; [exact Hspeed|exact Hcal].
Defined.

Lemma SportsWalking_get_spent_calories_returns
    (libm_pow : float -> float -> float)
    (action duration weight height : number) (ms wt sq hm mins : float) :
  CONVERT_TO_DOUBLE weight = Ok wt ->
  get_mean_speed (SportsWalking action duration weight height) =
    Ok (PyFloat ms) ->
  py_pow libm_pow (PyFloat (ms * 0.278)) (PyInt 2) = Ok (PyFloat sq) ->
  py_truediv height (PyInt 100) = Ok (PyFloat hm) ->
  (hm =? 0)%float = false ->
  (let* m := py_mul duration (PyInt 60) in CONVERT_TO_DOUBLE m) = Ok mins ->
  SportsWalking_get_spent_calories libm_pow
    (SportsWalking action duration weight height) =
  Ok (PyFloat ((0.035 * wt + sq / hm * (0.029 * wt)) * mins)).
Proof.
  intros Hw Hms Hsq Hh Hnz Hmins. unfold SportsWalking_get_spent_calories.
  unfold CALORIES_WEIGHT_MULTIPLIER, CALORIES_WEIGHT_MULTIPLIER2, MTR, H_TO_M.
  rewrite TRN_TO_MS_value.
  rewrite !py_mul_float_l, Hw, !bind_Ok, Hms, !bind_Ok.
  rewrite py_mul_float_l. simpl CONVERT_TO_DOUBLE. rewrite !bind_Ok.
  rewrite Hsq, bind_Ok, Hh, bind_Ok.
  rewrite py_truediv_float_l. simpl CONVERT_TO_DOUBLE. rewrite bind_Ok, Hnz.
  rewrite !bind_Ok, py_mul_float_l. simpl CONVERT_TO_DOUBLE.
  rewrite !bind_Ok, py_add_float_l. simpl CONVERT_TO_DOUBLE. rewrite !bind_Ok.
  destruct (py_mul duration (PyInt 60)) as [m|e]; [|discriminate].
  rewrite !bind_Ok in *. rewrite py_mul_float_l, Hmins. reflexivity.
Qed.

(** C4.  For a [SportsWalking] workout whose duration and height are not
    zero, [get_spent_calories] returns
    [(0.035 * weight + sq / (height / 100) * (0.029 * weight))
     * (duration * 60)]
    where [sq] is the square of [speed * 0.278] and [speed] is what
    [get_mean_speed] returns; the constant [TRN_TO_MS] is [1000 / 3600]
    rounded to three decimals, 0.278, and the height is divided by 100, being
    in centimetres.  A height given as a float must also be large enough for
    [height / 100] not to underflow to zero, which an [int] height that is
    not zero always is. *)
Theorem SportsWalking_get_spent_calories_formula
    (libm_pow : float -> float -> float)
    (action duration weight height : number) (a t wt hm mins : float) :
  is_zero duration = false ->
  is_zero height = false ->
  CONVERT_TO_DOUBLE action = Ok a ->
  CONVERT_TO_DOUBLE duration = Ok t ->
  CONVERT_TO_DOUBLE weight = Ok wt ->
  py_truediv height (PyInt 100) = Ok (PyFloat hm) ->
  (forall x, height = PyFloat x -> (hm =? 0)%float = false) ->
  (let* m := py_mul duration (PyInt 60) in CONVERT_TO_DOUBLE m) = Ok mins ->
  ((let* q := py_truediv (PyInt 1000) (PyInt 3600) in py_round q 3) =
     Ok TRN_TO_MS
   /\ TRN_TO_MS = PyFloat 0.278 /\ MTR = PyInt 100)
  /\ exists ms : float,
       get_mean_speed (SportsWalking action duration weight height) =
         Ok (PyFloat ms)
       /\ forall sq : float,
            py_pow libm_pow (PyFloat (ms * 0.278)) (PyInt 2) =
              Ok (PyFloat sq) ->
            get_spent_calories libm_pow
              (SportsWalking action duration weight height) =
            Ok (PyFloat ((0.035 * wt + sq / hm * (0.029 * wt)) * mins)).
Proof.
  intros Hz Hzh Ha Ht Hw Hh Hfloat Hmins.
  pose proof (nonzero_CONVERT_TO_DOUBLE _ _ Hz Ht) as Hnz.
  assert (Hhnz : (hm =? 0)%float = false).
  { destruct height as [h|x]; [|exact (Hfloat x eq_refl)].
    apply (height_in_metres_nonzero h); [|exact Hh].
    apply Z.eqb_neq. exact Hzh. }
  split; [split; [exact TRN_TO_MS_class_body|split;
                  [exact TRN_TO_MS_value|reflexivity]]|].
  assert (Hms : get_mean_speed (SportsWalking action duration weight height)
                = Ok (PyFloat (a * 0.65 / 1000 / t))).
  { apply Training_get_mean_speed_returns; [|exact Ht|exact Hnz].
    rewrite get_distance_eq. simpl. rewrite Ha. reflexivity. }
  exists (a * 0.65 / 1000 / t)%float. split; [exact Hms|].
  intros sq Hsq.
  exact (SportsWalking_get_spent_calories_returns libm_pow _ _ _ _ _ _ _ _ _
           Hw Hms Hsq Hh Hhnz Hmins).
Qed.

(** C4 on the third sample package, the square being the exact one. *)
Lemma SportsWalking_get_spent_calories_formula_witness :
  let self := SportsWalking (PyInt 9000) (PyInt 1) (PyInt 75) (PyInt 180) in
  let sq := (5.85 * 0.278 * (5.85 * 0.278))%float in
  TRN_TO_MS = PyFloat 0.278
  /\ get_mean_speed self = Ok (PyFloat 5.85)
  /\ get_spent_calories exact_square self =
     Ok (PyFloat ((0.035 * 75 + sq / 1.8 * (0.029 * 75)) * 60)).
Proof.
  intros self sq.
  destruct (SportsWalking_get_spent_calories_formula exact_square
              (PyInt 9000) (PyInt 1) (PyInt 75) (PyInt 180) 9000 1 75 1.8 60)
    as ((_ & Htrn & _) & ms & Hms & Hcal); try (vm_compute; reflexivity).
  assert (Hspeed : get_mean_speed self = Ok (PyFloat 5.85))
    by (vm_compute; reflexivity).
  fold self in Hms, Hcal. rewrite Hspeed in Hms. injection Hms as <-.
  split; [exact Htrn|]. split; [exact Hspeed|].
  apply Hcal. vm_compute. reflexivity.
Defined.

(** ** Reading a package *)

(** A class called with the wrong number of positional arguments raises
    [TypeError]; the dispatcher does not check the arity itself. *)
Lemma read_package_arity :
  (forall data, length data <> 5%nat ->
                read_package "SWM" data = Raise TypeError)
  /\ (forall data, length data <> 3%nat ->
                   read_package "RUN" data = Raise TypeError)
  /\ (forall data, length data <> 4%nat ->
                   read_package "WLK" data = Raise TypeError).
Proof.
  repeat split; intros data Hlen;
    change (read_package _ data) with (call_Swimming data) +
    change (read_package _ data) with (call_Running data) +
    change (read_package _ data) with (call_SportsWalking data);
    do 6 (try destruct data as [|? data]); simpl in *;
    reflexivity || contradiction.
Qed.

(** C5.  A workout type that is none of ["SWM"], ["RUN"], ["WLK"] makes
    [read_package] raise [ValueError], whatever the data are; each of the
    three codes builds an instance of its class from the positional data. *)
Theorem read_package_dispatches_on_the_code :
  (forall (workout_type : string) (data : list number),
     workout_type <> "SWM" -> workout_type <> "RUN" ->
     workout_type <> "WLK" ->
     read_package workout_type data =
     Raise (ValueError "Передан неверный идентификатор тренировки."))
  /\ (forall action duration weight lenght_pool count_pool,
        read_package "SWM"
          [action; duration; weight; lenght_pool; count_pool] =
        Ok (Swimming action duration weight lenght_pool count_pool))
  /\ (forall action duration weight,
        read_package "RUN" [action; duration; weight] =
        Ok (Running action duration weight))
  /\ (forall action duration weight height,
        read_package "WLK" [action; duration; weight; height] =
        Ok (SportsWalking action duration weight height)).
Proof.
  split; [|repeat split].
  intros workout_type data Hswm Hrun Hwlk. unfold read_package, activites.
  rewrite !lookup_insert_ne by congruence. rewrite lookup_empty. reflexivity.
Qed.

(** C5 on the fourth scenario: the code ["XYZ"]. *)
Lemma read_package_dispatches_on_the_code_witness :
  read_package "XYZ" [PyInt 1; PyInt 1; PyInt 1] =
  Raise (ValueError "Передан неверный идентификатор тренировки.").
Proof.
  apply (proj1 read_package_dispatches_on_the_code); discriminate.
Defined.

(** ** The message *)

(** The default template names its fields [self.training_type],
    [self.duration], ... while [get_message] passes the fields themselves as
    keyword arguments: there is no argument [self], and the first
    replacement field already raises. *)
Lemma get_message_raises_KeyError
    (training_type : string) (duration distance speed calories : number) :
  InfoMessage.get_message
    (InfoMessage.new training_type duration distance speed calories) =
  Raise (KeyError "self").
Proof. vm_compute. reflexivity. Qed.

(** The formatter itself renders the message when the fields are named
    without the prefix: the lookup is what fails in [get_message], not the
    specifier [.3f]. *)
Lemma str_format_of_unprefixed_fields :
  str_format
    ("Тип тренировки {training_type}; Длительность: {duration:.3f} ч.; "
     ++ "Дистанция: {distance:.3f} км; Ср. скорость: {speed:.3f} км/ч; "
     ++ "Потрачено ккал: {calories:.3f}.")
    (InfoMessage.asdict
       (InfoMessage.new "Running" (PyInt 1) (PyFloat 9.75) (PyFloat 9.75)
          (PyFloat 797.805))) =
  Ok ("Тип тренировки Running; Длительность: 1.000 ч.; "
      ++ "Дистанция: 9.750 км; Ср. скорость: 9.750 км/ч; "
      ++ "Потрачено ккал: 797.805.").
Proof. vm_compute. reflexivity. Qed.

(** C6, on the second sample package.  The summary is built, but rendering
    it with [get_message] raises [KeyError] instead of producing the line
    with the name and the four numbers at three decimals; what [main] prints
    is the template itself, placeholders included. *)
Theorem get_message_of_the_running_sample :
  (let* info := show_training_info exact_square
                  (Running (PyInt 15000) (PyInt 1) (PyInt 75)) in
   InfoMessage.get_message info) = Raise (KeyError "self")
  /\ main exact_square (Running (PyInt 15000) (PyInt 1) (PyInt 75)) =
     Ok InfoMessage.default_message.
Proof. split; vm_compute; reflexivity. Qed.

(** ** The sample run *)

(** The calories of the second sample package are below 798 and do not
    print as 798.929. *)
Lemma Running_sample_calories_are_not_798_929 :
  exists x : float,
    get_spent_calories exact_square
      (Running (PyInt 15000) (PyInt 1) (PyInt 75)) = Ok (PyFloat x)
    /\ (x <? 798)%float = true
    /\ format_value (VNum (PyFloat x)) ".3f" <> Ok "798.929".
Proof.
  eexists. split; [vm_compute; reflexivity|].
  split; [reflexivity|]. vm_compute. discriminate.
Qed.

(** C7, amended.  For [Running(15000, 1, 75)] the distance prints as 9.750,
    the mean speed as 9.750 and the calories as 797.805 under [.3f]. *)
Theorem Running_sample_metrics (libm_pow : float -> float -> float) :
  let self := Running (PyInt 15000) (PyInt 1) (PyInt 75) in
  (let* v := get_distance self in format_value (VNum v) ".3f") = Ok "9.750"
  /\ (let* v := get_mean_speed self in format_value (VNum v) ".3f") =
     Ok "9.750"
  /\ (let* v := get_spent_calories libm_pow self in
      format_value (VNum v) ".3f") = Ok "797.805".
Proof. repeat split; vm_compute; reflexivity. Qed.

(** ** Independence of the two formulas of [Swimming] *)

(** C8.  Two [Swimming] workouts that differ only in the pool length or in
    the lap count have the same distance, and some such pairs have different
    mean speeds; two that differ only in the action have the same mean
    speed. *)
Theorem Swimming_distance_and_speed_are_independent :
  (forall action duration weight lenght_pool count_pool lenght_pool'
          count_pool',
     get_distance (Swimming action duration weight lenght_pool count_pool) =
     get_distance (Swimming action duration weight lenght_pool' count_pool'))
  /\ (exists action duration weight lenght_pool lenght_pool' count_pool,
        get_mean_speed
          (Swimming action duration weight lenght_pool count_pool) <>
        get_mean_speed
          (Swimming action duration weight lenght_pool' count_pool))
  /\ (exists action duration weight lenght_pool count_pool count_pool',
        get_mean_speed
          (Swimming action duration weight lenght_pool count_pool) <>
        get_mean_speed
          (Swimming action duration weight lenght_pool count_pool'))
  /\ (forall action action' duration weight lenght_pool count_pool,
        get_mean_speed
          (Swimming action duration weight lenght_pool count_pool) =
        get_mean_speed
          (Swimming action' duration weight lenght_pool count_pool)).
Proof.
  split; [reflexivity|split; [|split; [|reflexivity]]].
  - exists (PyInt 720), (PyInt 1), (PyInt 80), (PyInt 25), (PyInt 50),
      (PyInt 40).
    intros Heq. apply (f_equal (fun r => returns_float r 1)) in Heq.
    vm_compute in Heq. discriminate.
  - exists (PyInt 720), (PyInt 1), (PyInt 80), (PyInt 25), (PyInt 40),
      (PyInt 80).
    intros Heq. apply (f_equal (fun r => returns_float r 1)) in Heq.
    vm_compute in Heq. discriminate.
Qed.

(** ** Division by zero *)

(** A float equal to zero is one of the two zeros. *)
Lemma float_eqb_zero (x : float) :
  (x =? 0)%float = true -> x = 0%float \/ x = neg_zero.
Proof.
  intros H. rewrite FloatAxioms.eqb_spec in H.
  change (Prim2SF 0) with (S754_zero false) in H.
  rewrite <- (SF2Prim_Prim2SF x).
  destruct (Prim2SF x) as [[|]|[|]| |[|] m e]; try discriminate H.
  - right. reflexivity.
  - left. reflexivity.
Qed.

(** A number that is zero converts to a float that is zero. *)
Lemma is_zero_CONVERT_TO_DOUBLE (v : number) :
  is_zero v = true ->
  exists t, CONVERT_TO_DOUBLE v = Ok t /\ (t =? 0)%float = true.
Proof.
  destruct v as [n|x]; simpl; intros Hz.
  - apply Z.eqb_eq in Hz. subst n. exists 0%float.
    split; [exact PyLong_AsDouble_0|reflexivity].
  - exists x. split; [reflexivity|exact Hz].
Qed.

(** A zero height is zero metres. *)
Lemma zero_height_in_metres (height : number) :
  is_zero height = true ->
  exists hm, py_truediv height MTR = Ok (PyFloat hm)
             /\ (hm =? 0)%float = true.
Proof.
  intros Hz. destruct height as [n|x]; simpl in Hz.
  - apply Z.eqb_eq in Hz. subst n. exists 0%float.
    split; vm_compute; reflexivity.
  - exists (x / 100)%float. split.
    + unfold MTR. rewrite py_truediv_float_l. simpl CONVERT_TO_DOUBLE.
      rewrite PyLong_AsDouble_100. reflexivity.
    + destruct (float_eqb_zero x Hz) as [-> | ->]; reflexivity.
Qed.

(** The result of [/] is always a float. *)
Lemma py_truediv_is_float (v w r : number) :
  py_truediv v w = Ok r -> exists x, r = PyFloat x.
Proof.
  intros H.
  destruct v as [a|x], w as [b|y];
    unfold py_truediv, long_true_divide, float_div, CONVERT_TO_DOUBLE in H;
    repeat match type of H with
           | context [bind (Ok _) _] => rewrite bind_Ok in H
           | context [bind (PyLong_AsDouble ?n) _] =>
               destruct (PyLong_AsDouble n);
               [rewrite bind_Ok in H|discriminate H]
           | context [if ?c then _ else _] => destruct c; [discriminate H|]
           end;
    inversion H; subst; eexists; reflexivity.
Qed.

(** With a zero duration the division is reached as soon as the dividend is
    computed, for the inherited method and for the override alike. *)
Lemma Training_get_mean_speed_zero_duration (self : training) (d : number) :
  get_distance self = Ok d ->
  is_zero (duration self) = true ->
  Training_get_mean_speed self = Raise ZeroDivisionError.
Proof.
  intros Hd Hz. rewrite Training_get_mean_speed_eq.
  rewrite get_distance_eq in Hd.
  destruct (CONVERT_TO_DOUBLE (action self)) as [a|e]; [|discriminate].
  destruct (is_zero_CONVERT_TO_DOUBLE _ Hz) as (t & -> & Ht).
  rewrite !bind_Ok, Ht. reflexivity.
Qed.

Lemma Swimming_get_mean_speed_zero_duration
    (action duration weight lenght_pool count_pool lenght km : number) :
  py_mul lenght_pool count_pool = Ok lenght ->
  py_truediv lenght M_IN_KM = Ok km ->
  is_zero duration = true ->
  get_mean_speed (Swimming action duration weight lenght_pool count_pool) =
  Raise ZeroDivisionError.
Proof.
  intros Hl Hkm Hz. simpl. rewrite Hl, bind_Ok, Hkm, bind_Ok.
  destruct (is_zero_CONVERT_TO_DOUBLE _ Hz) as (t & Ht & Htz).
  destruct (py_truediv_is_float _ _ _ Hkm) as (x & ->).
  rewrite py_truediv_float_l, Ht, bind_Ok, Htz. reflexivity.
Qed.

(** Whatever the other fields are, a zero duration keeps [get_mean_speed]
    from returning. *)
Lemma get_mean_speed_zero_duration_never_returns (self : training) :
  is_zero (duration self) = true -> returns (get_mean_speed self) = false.
Proof.
  intros Hz. destruct (is_zero_CONVERT_TO_DOUBLE _ Hz) as (t & Ht & Htz).
  assert (Hgen : returns (Training_get_mean_speed self) = false).
  { rewrite Training_get_mean_speed_eq, Ht.
    destruct (CONVERT_TO_DOUBLE (action self)); [|reflexivity].
    rewrite !bind_Ok, Htz. reflexivity. }
  destruct self as [a d w|a d w|a d w h|a d w lp cp]; try exact Hgen.
  simpl in *. destruct (py_mul lp cp) as [l|]; [|reflexivity].
  rewrite bind_Ok. destruct (py_truediv l M_IN_KM) as [km|] eqn:Hkm;
    [|reflexivity].
  rewrite bind_Ok. destruct (py_truediv_is_float _ _ _ Hkm) as (x & ->).
  rewrite py_truediv_float_l, Ht, bind_Ok, Htz. reflexivity.
Qed.

Lemma py_truediv_by_zero (v : number) (y : float) :
  (y =? 0)%float = true ->
  py_truediv v (PyFloat y) =
  let* _ := CONVERT_TO_DOUBLE v in Raise ZeroDivisionError.
Proof.
  intros Hy. destruct v as [n|x]; unfold py_truediv, float_div;
    destruct (CONVERT_TO_DOUBLE _); rewrite ?bind_Ok, ?bind_Raise;
    simpl CONVERT_TO_DOUBLE; rewrite ?bind_Ok, ?Hy; reflexivity.
Qed.

(** A [SportsWalking] workout of height zero: once the terms on the left of
    the division are computed, the division raises. *)
Lemma SportsWalking_get_spent_calories_zero_height
    (libm_pow : float -> float -> float)
    (action duration weight height : number) (wt ms sq : float) :
  CONVERT_TO_DOUBLE weight = Ok wt ->
  get_mean_speed (SportsWalking action duration weight height) =
    Ok (PyFloat ms) ->
  py_pow libm_pow (PyFloat (ms * 0.278)) (PyInt 2) = Ok (PyFloat sq) ->
  is_zero height = true ->
  SportsWalking_get_spent_calories libm_pow
    (SportsWalking action duration weight height) = Raise ZeroDivisionError.
Proof.
  intros Hw Hms Hsq Hz. unfold SportsWalking_get_spent_calories.
  unfold CALORIES_WEIGHT_MULTIPLIER. rewrite TRN_TO_MS_value.
  rewrite !py_mul_float_l, Hw, !bind_Ok, Hms, !bind_Ok.
  rewrite py_mul_float_l. simpl CONVERT_TO_DOUBLE. rewrite !bind_Ok.
  rewrite Hsq, bind_Ok.
  destruct (zero_height_in_metres _ Hz) as (hm & -> & Hhm).
  rewrite bind_Ok, (py_truediv_by_zero _ _ Hhm). reflexivity.
Qed.

Lemma SportsWalking_zero_height_never_returns
    (libm_pow : float -> float -> float)
    (action duration weight height : number) :
  is_zero height = true ->
  returns (SportsWalking_get_spent_calories libm_pow
             (SportsWalking action duration weight height)) = false.
Proof.
  intros Hz. unfold SportsWalking_get_spent_calories.
  destruct (py_mul CALORIES_WEIGHT_MULTIPLIER weight); [|reflexivity].
  rewrite bind_Ok. destruct (get_mean_speed _); [|reflexivity].
  rewrite bind_Ok. destruct (py_mul _ TRN_TO_MS); [|reflexivity].
  rewrite bind_Ok. destruct (py_pow _ _ _) as [t3|]; [|reflexivity].
  rewrite bind_Ok.
  destruct (zero_height_in_metres _ Hz) as (hm & -> & Hhm).
  rewrite bind_Ok, (py_truediv_by_zero _ _ Hhm).
  destruct (CONVERT_TO_DOUBLE t3); reflexivity.
Qed.

(** An exception of [get_mean_speed] is the exception of
    [show_training_info] when the distance was computed: nothing catches
    it. *)
Lemma show_training_info_propagates_mean_speed
    (libm_pow : float -> float -> float) (self : training) (d : number)
    (e : exn) :
  get_distance self = Ok d ->
  get_mean_speed self = Raise e ->
  show_training_info libm_pow self = Raise e.
Proof.
  intros Hd Hms. unfold show_training_info. rewrite Hd, bind_Ok, Hms.
  reflexivity.
Qed.

Lemma show_training_info_propagates_calories
    (libm_pow : float -> float -> float) (self : training) (ms : number)
    (e : exn) :
  get_mean_speed self = Ok ms ->
  get_spent_calories libm_pow self = Raise e ->
  (forall a d w lp cp, self <> Swimming a d w lp cp) ->
  show_training_info libm_pow self = Raise e.
Proof.
  intros Hms Hcal Hgen. unfold show_training_info.
  assert (Hd : exists d, get_distance self = Ok d).
  { destruct self as [a d w|a d w|a d w h|a d w lp cp];
      try (simpl in Hms; unfold Training_get_mean_speed in Hms;
           destruct (get_distance _); [eauto|discriminate]).
    exfalso. eapply Hgen. reflexivity. }
  destruct Hd as (d & ->). rewrite bind_Ok, Hms, bind_Ok, Hcal. reflexivity.
Qed.

(** C9.  Nothing validates a zero duration or a zero height.  With a zero
    duration [get_mean_speed] never returns, in any class, and raises
    [ZeroDivisionError] once its dividend is computed; with a zero height
    [get_spent_calories] of [SportsWalking] never returns and raises
    [ZeroDivisionError] once the terms before the division are computed.
    The exception passes through [show_training_info] unhandled, and
    [read_package] builds such workouts without complaint. *)
Theorem division_by_zero_is_not_guarded
    (libm_pow : float -> float -> float) :
  (forall self,
     is_zero (duration self) = true ->
     returns (get_mean_speed self) = false)
  /\ (forall action duration weight d,
        get_distance (Running action duration weight) = Ok d ->
        is_zero duration = true ->
        get_mean_speed (Running action duration weight) =
          Raise ZeroDivisionError
        /\ show_training_info libm_pow (Running action duration weight) =
           Raise ZeroDivisionError)
  /\ (forall action duration weight height d,
        get_distance (SportsWalking action duration weight height) = Ok d ->
        is_zero duration = true ->
        get_mean_speed (SportsWalking action duration weight height) =
          Raise ZeroDivisionError
        /\ show_training_info libm_pow
             (SportsWalking action duration weight height) =
           Raise ZeroDivisionError)
  /\ (forall action duration weight lenght_pool count_pool d lenght km,
        get_distance
          (Swimming action duration weight lenght_pool count_pool) = Ok d ->
        py_mul lenght_pool count_pool = Ok lenght ->
        py_truediv lenght (PyInt 1000) = Ok km ->
        is_zero duration = true ->
        get_mean_speed
          (Swimming action duration weight lenght_pool count_pool) =
          Raise ZeroDivisionError
        /\ show_training_info libm_pow
             (Swimming action duration weight lenght_pool count_pool) =
           Raise ZeroDivisionError)
  /\ (forall action duration weight height,
        is_zero height = true ->
        returns (get_spent_calories libm_pow
                   (SportsWalking action duration weight height)) = false)
  /\ (forall action duration weight height wt ms sq,
        CONVERT_TO_DOUBLE weight = Ok wt ->
        get_mean_speed (SportsWalking action duration weight height) =
          Ok (PyFloat ms) ->
        py_pow libm_pow (PyFloat (ms * 0.278)) (PyInt 2) = Ok (PyFloat sq) ->
        is_zero height = true ->
        get_spent_calories libm_pow
          (SportsWalking action duration weight height) =
          Raise ZeroDivisionError
        /\ show_training_info libm_pow
             (SportsWalking action duration weight height) =
           Raise ZeroDivisionError)
  /\ (forall action duration weight height lenght_pool count_pool,
        is_zero duration = true ->
        is_zero height = true ->
        read_package "RUN" [action; duration; weight] =
          Ok (Running action duration weight)
        /\ read_package "WLK" [action; duration; weight; height] =
           Ok (SportsWalking action duration weight height)
        /\ read_package "SWM"
             [action; duration; weight; lenght_pool; count_pool] =
           Ok (Swimming action duration weight lenght_pool count_pool)).
Proof.
  split; [exact get_mean_speed_zero_duration_never_returns|].
  split; [|split; [|split; [|split; [|split; [|repeat split]]]]].
  - intros action duration weight d Hd Hz.
    pose proof (Training_get_mean_speed_zero_duration
                  (Running action duration weight) d Hd Hz) as Hms.
    split; [exact Hms|].
    exact (show_training_info_propagates_mean_speed _ _ _ _ Hd Hms).
  - intros action duration weight height d Hd Hz.
    pose proof (Training_get_mean_speed_zero_duration
                  (SportsWalking action duration weight height) d Hd Hz)
      as Hms.
    split; [exact Hms|].
    exact (show_training_info_propagates_mean_speed _ _ _ _ Hd Hms).
  - intros action duration weight lenght_pool count_pool d lenght km
      Hd Hl Hkm Hz.
    pose proof (Swimming_get_mean_speed_zero_duration action duration weight
                  lenght_pool count_pool lenght km Hl Hkm Hz) as Hms.
    split; [exact Hms|].
    exact (show_training_info_propagates_mean_speed _ _ _ _ Hd Hms).
  - intros action duration weight height Hz.
    exact (SportsWalking_zero_height_never_returns _ _ _ _ _ Hz).
  - intros action duration weight height wt ms sq Hw Hms Hsq Hz.
    pose proof (SportsWalking_get_spent_calories_zero_height libm_pow
                  action duration weight height wt ms sq Hw Hms Hsq Hz)
      as Hcal.
    split; [exact Hcal|].
    apply (show_training_info_propagates_calories _ _ _ _ Hms Hcal).
    discriminate.
Qed.

(** C9 on the sample packages with the duration, respectively the height,
    set to zero. *)
Lemma division_by_zero_is_not_guarded_witness :
  returns (get_mean_speed (Running (PyInt 15000) (PyInt 0) (PyInt 75))) =
    false
  /\ show_training_info exact_square
       (Running (PyInt 15000) (PyInt 0) (PyInt 75)) = Raise ZeroDivisionError
  /\ show_training_info exact_square
       (SportsWalking (PyInt 9000) (PyFloat 0) (PyInt 75) (PyInt 180)) =
     Raise ZeroDivisionError
  /\ show_training_info exact_square
       (Swimming (PyInt 720) (PyInt 0) (PyInt 80) (PyInt 25) (PyInt 40)) =
     Raise ZeroDivisionError
  /\ returns (get_spent_calories exact_square
                (SportsWalking (PyInt 9000) (PyInt 1) (PyInt 75) (PyInt 0)))
     = false
  /\ show_training_info exact_square
       (SportsWalking (PyInt 9000) (PyInt 1) (PyInt 75) (PyInt 0)) =
     Raise ZeroDivisionError
  /\ read_package "WLK" [PyInt 9000; PyInt 0; PyInt 75; PyInt 0] =
     Ok (SportsWalking (PyInt 9000) (PyInt 0) (PyInt 75) (PyInt 0)).
Proof.
  destruct (division_by_zero_is_not_guarded exact_square)
    as (Hnever & Hrun & Hwlk & Hswm & Hheight & Hcal & Hread).
  split; [apply Hnever; reflexivity|].
  split; [apply (fun H1 H2 => proj2 (Hrun _ _ _ (PyFloat 9.75) H1 H2));
          vm_compute; reflexivity|].
  split; [apply (fun H1 H2 => proj2 (Hwlk _ _ _ _ (PyFloat 5.85) H1 H2));
          vm_compute; reflexivity|].
  split; [apply (fun H1 H2 H3 H4 =>
                   proj2 (Hswm _ _ _ _ _ (PyFloat (720 * 1.38 / 1000)) (PyInt 1000)
                            (PyFloat 1) H1 H2 H3 H4));
          vm_compute; reflexivity|].
  split; [apply Hheight; reflexivity|].
  split; [apply (fun H1 H2 H3 H4 =>
                   proj2 (Hcal _ _ _ _ 75%float 5.85%float
                            (5.85 * 0.278 * (5.85 * 0.278))%float
                            H1 H2 H3 H4));
          vm_compute; reflexivity|].
  apply (Hread (PyInt 9000) (PyInt 0) (PyInt 75) (PyInt 0) (PyInt 0)
           (PyInt 0)); reflexivity.
Defined.

(** ** The base class *)

(** A [Training] that is not of a subclass, with a zero duration: the
    summary fails in [get_mean_speed], before the calories are asked for. *)
Lemma Training_summary_with_zero_duration :
  show_training_info exact_square (Training (PyInt 1) (PyInt 0) (PyInt 1)) =
    Raise ZeroDivisionError
  /\ show_training_info exact_square
       (Training (PyInt 1) (PyInt 0) (PyInt 1)) <> Raise NotImplementedError.
Proof. split; vm_compute; [reflexivity|discriminate]. Qed.

(** C10, amended.  On an instance of [Training] itself [get_spent_calories]
    raises [NotImplementedError] and [show_training_info] never returns.  It
    raises [NotImplementedError] whenever the distance and the mean speed,
    which come first, are computed; otherwise it raises the exception of the
    first of the two that fails: that of [get_distance], or, the distance
    being computed, that of [get_mean_speed], which is [ZeroDivisionError]
    when the duration is zero.  A summary that is returned is the summary of
    one of the three subclasses, and each of them returns one on its sample
    package. *)
Theorem Training_base_class_has_no_summary :
  (forall libm_pow action duration weight,
     get_spent_calories libm_pow (Training action duration weight) =
       Raise NotImplementedError
     /\ returns (show_training_info libm_pow
                   (Training action duration weight)) = false)
  /\ (forall libm_pow action duration weight d ms,
        get_distance (Training action duration weight) = Ok d ->
        get_mean_speed (Training action duration weight) = Ok ms ->
        show_training_info libm_pow (Training action duration weight) =
          Raise NotImplementedError)
  /\ (forall libm_pow self,
        returns (show_training_info libm_pow self) = true ->
        In (class_name self) ["Running"; "SportsWalking"; "Swimming"])
  /\ (returns (show_training_info exact_square
                 (Running (PyInt 15000) (PyInt 1) (PyInt 75))) = true
      /\ returns (show_training_info exact_square
                    (SportsWalking (PyInt 9000) (PyInt 1) (PyInt 75)
                       (PyInt 180))) = true
      /\ returns (show_training_info exact_square
                    (Swimming (PyInt 720) (PyInt 1) (PyInt 80) (PyInt 25)
                       (PyInt 40))) = true)
  /\ (forall libm_pow action duration weight e,
        get_distance (Training action duration weight) = Raise e ->
        show_training_info libm_pow (Training action duration weight) =
          Raise e)
  /\ (forall libm_pow action duration weight d e,
        get_distance (Training action duration weight) = Ok d ->
        get_mean_speed (Training action duration weight) = Raise e ->
        show_training_info libm_pow (Training action duration weight) =
          Raise e)
  /\ (forall libm_pow action duration weight d,
        get_distance (Training action duration weight) = Ok d ->
        is_zero duration = true ->
        show_training_info libm_pow (Training action duration weight) =
          Raise ZeroDivisionError).
Proof.
  assert (Hbase : forall libm_pow action duration weight,
             returns (show_training_info libm_pow
                        (Training action duration weight)) = false).
  { intros. unfold show_training_info.
    destruct (get_distance _); [|reflexivity].
    rewrite bind_Ok. destruct (get_mean_speed _); reflexivity. }
  split; [|split; [|split; [|split; [repeat split|split; [|split]]]]].
  - intros. split; [reflexivity|apply Hbase].
  - intros libm_pow action duration weight d ms Hd Hms.
    unfold show_training_info. rewrite Hd, bind_Ok, Hms. reflexivity.
  - intros libm_pow self Hret.
    destruct self as [a d w|a d w|a d w h|a d w lp cp]; simpl class_name.
    + rewrite Hbase in Hret. discriminate.
    + left. reflexivity.
    + right. left. reflexivity.
    + right. right. left. reflexivity.
  - intros libm_pow action duration weight e Hd.
    unfold show_training_info. rewrite Hd. reflexivity.
  - intros libm_pow action duration weight d e Hd Hms.
    exact (show_training_info_propagates_mean_speed _ _ _ _ Hd Hms).
  - intros libm_pow action duration weight d Hd Hz.
    apply (show_training_info_propagates_mean_speed _ _ d _ Hd).
    exact (Training_get_mean_speed_zero_duration
             (Training action duration weight) d Hd Hz).
Qed.

(** C10 on base instances: with the data of the second sample package the
    summary raises [NotImplementedError]; with a zero duration it raises
    [ZeroDivisionError]; with an action too large for a float as well it
    raises the [OverflowError] of the distance, which comes first. *)
Lemma Training_base_class_has_no_summary_witness :
  show_training_info exact_square
    (Training (PyInt 15000) (PyInt 1) (PyInt 75)) = Raise NotImplementedError
  /\ In (class_name (Running (PyInt 15000) (PyInt 1) (PyInt 75)))
       ["Running"; "SportsWalking"; "Swimming"]
  /\ show_training_info exact_square
       (Training (PyInt 15000) (PyInt 0) (PyInt 75)) = Raise ZeroDivisionError
  /\ show_training_info exact_square
       (Training (PyInt (10 ^ 400)) (PyInt 0) (PyInt 1)) =
     Raise OverflowError
  /\ show_training_info exact_square
       (Training (PyInt 15000) (PyFloat neg_zero) (PyInt 75)) =
     Raise ZeroDivisionError.
Proof.
  destruct Training_base_class_has_no_summary
    as (_ & Hraise & Honly & _ & Hdist & Hspeed & Hzero).
  split; [|split; [|split; [|split]]].
  - apply (Hraise exact_square _ _ _ (PyFloat 9.75) (PyFloat 9.75));
      vm_compute; reflexivity.
  - apply (Honly exact_square). vm_compute. reflexivity.
  - apply (Hzero exact_square _ _ _ (PyFloat 9.75)); vm_compute; reflexivity.
  - apply (Hdist exact_square). vm_compute. reflexivity.
  - apply (Hspeed exact_square _ _ _ (PyFloat 9.75));
      vm_compute; reflexivity.
Defined.

(** * Further properties *)

(** ** The calories of [Swimming] *)

Lemma Swimming_get_spent_calories_returns
    (self : training) (ms wt t : float) :
  get_mean_speed self = Ok (PyFloat ms) ->
  CONVERT_TO_DOUBLE (weight self) = Ok wt ->
  CONVERT_TO_DOUBLE (duration self) = Ok t ->
  Swimming_get_spent_calories self =
  Ok (PyFloat ((ms + 1.1) * 2 * wt * t)).
Proof.
  intros Hms Hw Ht. unfold Swimming_get_spent_calories, const_cal, const_cal2.
  rewrite Hms, bind_Ok, py_add_float_l. simpl CONVERT_TO_DOUBLE.
  rewrite !bind_Ok, py_mul_float_l. simpl CONVERT_TO_DOUBLE.
  rewrite PyLong_AsDouble_2, !bind_Ok, py_mul_float_l, Hw, !bind_Ok.
  rewrite py_mul_float_l, Ht. reflexivity.
Qed.

(** X1.  For a [Swimming] workout with a duration that is not zero,
    [get_spent_calories] returns [(speed + 1.1) * 2 * weight * duration],
    where [speed] is the mean speed of the override,
    [lenght_pool * count_pool / 1000 / duration]; the action plays no part
    in it. *)
Theorem Swimming_get_spent_calories_formula
    (libm_pow : float -> float -> float)
    (action duration weight lenght_pool count_pool lenght : number)
    (km t wt : float) :
  is_zero duration = false ->
  py_mul lenght_pool count_pool = Ok lenght ->
  py_truediv lenght (PyInt 1000) = Ok (PyFloat km) ->
  CONVERT_TO_DOUBLE duration = Ok t ->
  CONVERT_TO_DOUBLE weight = Ok wt ->
  get_spent_calories libm_pow
    (Swimming action duration weight lenght_pool count_pool) =
    Ok (PyFloat ((km / t + 1.1) * 2 * wt * t))
  /\ forall action',
       get_spent_calories libm_pow
         (Swimming action' duration weight lenght_pool count_pool) =
       get_spent_calories libm_pow
         (Swimming action duration weight lenght_pool count_pool).
Proof.
  intros Hz Hl Hkm Ht Hw. split; [|reflexivity].
  apply Swimming_get_spent_calories_returns; [|exact Hw|exact Ht].
  exact (Swimming_get_mean_speed_returns action duration weight
           lenght_pool count_pool lenght km t Hl Hkm Ht
           (nonzero_CONVERT_TO_DOUBLE _ _ Hz Ht)).
Qed.

(** X1 on the first sample package. *)
Lemma Swimming_get_spent_calories_formula_witness :
  get_spent_calories exact_square
    (Swimming (PyInt 720) (PyInt 1) (PyInt 80) (PyInt 25) (PyInt 40)) =
  Ok (PyFloat ((1 / 1 + 1.1) * 2 * 80 * 1)).
Proof.
  apply (Swimming_get_spent_calories_formula exact_square
           (PyInt 720) (PyInt 1) (PyInt 80) (PyInt 25) (PyInt 40)
           (PyInt 1000) 1 1 80);
    vm_compute; reflexivity.
Defined.

(** ** The type of the metrics *)

Lemma py_mul_float_r_is_float (v : number) (y : float) (r : number) :
  py_mul v (PyFloat y) = Ok r -> exists x, r = PyFloat x.
Proof.
  rewrite py_mul_float_r. destruct (CONVERT_TO_DOUBLE v); [|discriminate].
  rewrite bind_Ok. intros H. inversion H. eauto.
Qed.

Lemma py_mul_float_l_is_float (x : float) (w r : number) :
  py_mul (PyFloat x) w = Ok r -> exists y, r = PyFloat y.
Proof.
  rewrite py_mul_float_l. destruct (CONVERT_TO_DOUBLE w); [|discriminate].
  rewrite bind_Ok. intros H. inversion H. eauto.
Qed.

Lemma py_add_float_l_is_float (x : float) (w r : number) :
  py_add (PyFloat x) w = Ok r -> exists y, r = PyFloat y.
Proof.
  rewrite py_add_float_l. destruct (CONVERT_TO_DOUBLE w); [|discriminate].
  rewrite bind_Ok. intros H. inversion H. eauto.
Qed.

Lemma py_add_float_r_is_float (v : number) (y : float) (r : number) :
  py_add v (PyFloat y) = Ok r -> exists x, r = PyFloat x.
Proof.
  destruct v as [n|x]; [|apply py_add_float_l_is_float].
  unfold py_add, float_add. destruct (CONVERT_TO_DOUBLE (PyInt n));
    [|discriminate].
  rewrite bind_Ok. simpl CONVERT_TO_DOUBLE. rewrite bind_Ok.
  intros H. inversion H. eauto.
Qed.

Lemma get_distance_is_float (self : training) (v : number) :
  get_distance self = Ok v -> exists x, v = PyFloat x.
Proof.
  rewrite get_distance_eq. destruct (CONVERT_TO_DOUBLE _); [|discriminate].
  rewrite bind_Ok. intros H. inversion H. eauto.
Qed.

Lemma get_mean_speed_is_float (self : training) (v : number) :
  get_mean_speed self = Ok v -> exists x, v = PyFloat x.
Proof.
  assert (Hgen : Training_get_mean_speed self = Ok v ->
                 exists x, v = PyFloat x).
  { unfold Training_get_mean_speed.
    destruct (get_distance self) as [d|]; [|discriminate].
    rewrite bind_Ok. apply py_truediv_is_float. }
  destruct self as [a d w|a d w|a d w h|a d w lp cp]; try exact Hgen.
  simpl. destruct (py_mul lp cp) as [l|]; [|discriminate].
  rewrite bind_Ok. destruct (py_truediv l M_IN_KM) as [km|]; [|discriminate].
  rewrite bind_Ok. apply py_truediv_is_float.
Qed.

Lemma get_spent_calories_is_float
    (libm_pow : float -> float -> float) (self : training) (v : number) :
  get_spent_calories libm_pow self = Ok v -> exists x, v = PyFloat x.
Proof.
  destruct self as [a d w|a d w|a d w h|a d w lp cp];
    unfold get_spent_calories.
  - discriminate.
  - unfold Running_get_spent_calories.
    destruct (get_mean_speed _) as [speed|]; [|discriminate].
    rewrite bind_Ok. destruct (py_mul _ speed) as [t1|]; [|discriminate].
    rewrite bind_Ok. destruct (py_add t1 _) as [t2|]; [|discriminate].
    rewrite bind_Ok. destruct (py_mul t2 _) as [t3|]; [|discriminate].
    rewrite bind_Ok.
    destruct (py_truediv t3 M_IN_KM) as [t4|] eqn:H4; [|discriminate].
    destruct (py_truediv_is_float _ _ _ H4) as (x4 & ->).
    rewrite bind_Ok.
    destruct (py_mul (PyFloat x4) _) as [t5|] eqn:H5; [|discriminate].
    destruct (py_mul_float_l_is_float _ _ _ H5) as (x5 & ->).
    rewrite bind_Ok. apply py_mul_float_l_is_float.
  - unfold SportsWalking_get_spent_calories, CALORIES_WEIGHT_MULTIPLIER.
    destruct (py_mul (PyFloat _) w) as [t1|] eqn:H1; [|discriminate].
    destruct (py_mul_float_l_is_float _ _ _ H1) as (x1 & ->).
    rewrite bind_Ok. destruct (get_mean_speed _) as [speed|]; [|discriminate].
    rewrite bind_Ok. destruct (py_mul speed _) as [t2|]; [|discriminate].
    rewrite bind_Ok. destruct (py_pow _ t2 _) as [t3|]; [|discriminate].
    rewrite bind_Ok. destruct (py_truediv h MTR) as [t4|]; [|discriminate].
    rewrite bind_Ok. destruct (py_truediv t3 t4) as [t5|]; [|discriminate].
    rewrite bind_Ok.
    destruct (py_mul CALORIES_WEIGHT_MULTIPLIER2 w) as [t6|]; [|discriminate].
    rewrite bind_Ok. destruct (py_mul t5 t6) as [t7|]; [|discriminate].
    rewrite bind_Ok.
    destruct (py_add (PyFloat x1) t7) as [t8|] eqn:H8; [|discriminate].
    destruct (py_add_float_l_is_float _ _ _ H8) as (x8 & ->).
    rewrite bind_Ok. destruct (py_mul d H_TO_M) as [t9|]; [|discriminate].
    rewrite bind_Ok. apply py_mul_float_l_is_float.
  - unfold Swimming_get_spent_calories, const_cal.
    destruct (get_mean_speed _) as [speed|]; [|discriminate].
    rewrite bind_Ok.
    destruct (py_add speed _) as [t1|] eqn:H1; [|discriminate].
    destruct (py_add_float_r_is_float _ _ _ H1) as (x1 & ->).
    rewrite bind_Ok.
    destruct (py_mul (PyFloat x1) _) as [t2|] eqn:H2; [|discriminate].
    destruct (py_mul_float_l_is_float _ _ _ H2) as (x2 & ->).
    rewrite bind_Ok.
    destruct (py_mul (PyFloat x2) _) as [t3|] eqn:H3; [|discriminate].
    destruct (py_mul_float_l_is_float _ _ _ H3) as (x3 & ->).
    rewrite bind_Ok. apply py_mul_float_l_is_float.
Qed.

(** X2.  Whatever the sensor data are, [int]s included, a distance, a mean
    speed or an amount of calories that is returned is a [float], as the
    annotations of the three methods say. *)
Theorem metrics_are_floats
    (libm_pow : float -> float -> float) (self : training) (v : number) :
  get_distance self = Ok v \/ get_mean_speed self = Ok v
  \/ get_spent_calories libm_pow self = Ok v ->
  exists x : float, v = PyFloat x.
Proof.
  intros [H|[H|H]].
  - exact (get_distance_is_float _ _ H).
  - exact (get_mean_speed_is_float _ _ H).
  - exact (get_spent_calories_is_float _ _ _ H).
Qed.

(** X2 on the calories of the third sample package, all of whose data are
    [int]s. *)
Lemma metrics_are_floats_witness :
  exists x : float,
    get_spent_calories exact_square
      (SportsWalking (PyInt 9000) (PyInt 1) (PyInt 75) (PyInt 180)) =
      Ok (PyFloat x).
Proof.
  destruct (get_spent_calories exact_square
              (SportsWalking (PyInt 9000) (PyInt 1) (PyInt 75) (PyInt 180)))
    as [v|e] eqn:Hcal; [|vm_compute in Hcal; discriminate].
  destruct (metrics_are_floats exact_square _ v (or_intror (or_intror Hcal)))
    as (x & ->).
  exists x. reflexivity.
Defined.

(** ** A zero duration, in every method *)

Lemma bind_never_returns {A B : Type} (m : result A) (k : A -> result B) :
  returns m = false -> returns (bind m k) = false.
Proof. destruct m; [discriminate|reflexivity]. Qed.

(** X3.  A workout whose duration is zero has no calories and no summary,
    in any class and whatever its other data are: every
    [get_spent_calories] asks for the mean speed before it can return, and
    so does [show_training_info]. *)
Theorem zero_duration_gives_no_summary
    (libm_pow : float -> float -> float) (self : training) :
  is_zero (duration self) = true ->
  returns (get_spent_calories libm_pow self) = false
  /\ returns (show_training_info libm_pow self) = false.
Proof.
  intros Hz.
  pose proof (get_mean_speed_zero_duration_never_returns self Hz) as Hms.
  split.
  - destruct self as [a d w|a d w|a d w h|a d w lp cp];
      unfold get_spent_calories.
    + reflexivity.
    + apply bind_never_returns. exact Hms.
    + unfold SportsWalking_get_spent_calories.
      destruct (py_mul CALORIES_WEIGHT_MULTIPLIER w); [|reflexivity].
      rewrite bind_Ok. apply bind_never_returns. exact Hms.
    + apply bind_never_returns. exact Hms.
  - unfold show_training_info.
    destruct (get_distance self); [|reflexivity].
    rewrite bind_Ok. apply bind_never_returns. exact Hms.
Qed.

(** X3 on the first sample package with the duration set to zero. *)
Lemma zero_duration_gives_no_summary_witness :
  let self :=
    Swimming (PyInt 720) (PyFloat 0) (PyInt 80) (PyInt 25) (PyInt 40) in
  returns (get_spent_calories exact_square self) = false
  /\ returns (show_training_info exact_square self) = false.
Proof.
  apply (zero_duration_gives_no_summary exact_square
           (Swimming (PyInt 720) (PyFloat 0) (PyInt 80) (PyInt 25)
              (PyInt 40))).
  reflexivity.
Defined.

(** ** What [read_package] accepts *)

Lemma call_Swimming_cases (data : list number) :
  (length data = 5%nat /\ returns (call_Swimming data) = true)
  \/ (length data <> 5%nat /\ call_Swimming data = Raise TypeError).
Proof.
  do 6 (try destruct data as [|? data]); simpl;
    solve [left; split; reflexivity | right; split; [lia|reflexivity]].
Qed.

Lemma call_Running_cases (data : list number) :
  (length data = 3%nat /\ returns (call_Running data) = true)
  \/ (length data <> 3%nat /\ call_Running data = Raise TypeError).
Proof.
  do 4 (try destruct data as [|? data]); simpl;
    solve [left; split; reflexivity | right; split; [lia|reflexivity]].
Qed.

Lemma call_SportsWalking_cases (data : list number) :
  (length data = 4%nat /\ returns (call_SportsWalking data) = true)
  \/ (length data <> 4%nat /\ call_SportsWalking data = Raise TypeError).
Proof.
  do 5 (try destruct data as [|? data]); simpl;
    solve [left; split; reflexivity | right; split; [lia|reflexivity]].
Qed.

Lemma read_package_unknown (workout_type : string) (data : list number) :
  workout_type <> "SWM" -> workout_type <> "RUN" -> workout_type <> "WLK" ->
  read_package workout_type data =
  Raise (ValueError "Передан неверный идентификатор тренировки.").
Proof.
  intros Hswm Hrun Hwlk. unfold read_package, activites.
  rewrite !lookup_insert_ne by congruence. rewrite lookup_empty. reflexivity.
Qed.

(** Each side of the three equivalences below is decided by the case at
    hand. *)
Ltac settle_outcome :=
  repeat match goal with
         | |- _ /\ _ => split
         | |- _ <-> _ => split
         end;
  intros Hx; try discriminate Hx; try tauto;
  try (destruct Hx as [[? ?]|[[? ?]|[? ?]]]; congruence).

(** X4.  What [read_package] does is decided by the code and by the number
    of data alone, never by their values: it returns exactly when the code is
    ["SWM"], ["RUN"] or ["WLK"] and there are 5, 3 or 4 data; it raises
    [TypeError] exactly when the code is one of the three and the number is
    another; it raises [ValueError] exactly when the code is none of them. *)
Theorem read_package_outcome (workout_type : string) (data : list number) :
  (returns (read_package workout_type data) = true <->
   (workout_type = "SWM" /\ length data = 5%nat)
   \/ (workout_type = "RUN" /\ length data = 3%nat)
   \/ (workout_type = "WLK" /\ length data = 4%nat))
  /\ (read_package workout_type data = Raise TypeError <->
      (workout_type = "SWM" /\ length data <> 5%nat)
      \/ (workout_type = "RUN" /\ length data <> 3%nat)
      \/ (workout_type = "WLK" /\ length data <> 4%nat))
  /\ (read_package workout_type data =
        Raise (ValueError "Передан неверный идентификатор тренировки.") <->
      workout_type <> "SWM" /\ workout_type <> "RUN"
      /\ workout_type <> "WLK").
Proof.
  destruct (string_dec workout_type "SWM") as [->|Hswm];
    [|destruct (string_dec workout_type "RUN") as [->|Hrun];
      [|destruct (string_dec workout_type "WLK") as [->|Hwlk]]].
  - change (read_package "SWM" data) with (call_Swimming data).
    destruct (call_Swimming_cases data) as [[Hlen Hret]|[Hlen Hraise]].
    + destruct (call_Swimming data); [|discriminate].
      settle_outcome.
    + rewrite Hraise.
      settle_outcome.
  - change (read_package "RUN" data) with (call_Running data).
    destruct (call_Running_cases data) as [[Hlen Hret]|[Hlen Hraise]].
    + destruct (call_Running data); [|discriminate].
      settle_outcome.
    + rewrite Hraise.
      settle_outcome.
  - change (read_package "WLK" data) with (call_SportsWalking data).
    destruct (call_SportsWalking_cases data) as [[Hlen Hret]|[Hlen Hraise]].
    + destruct (call_SportsWalking data); [|discriminate].
      settle_outcome.
    + rewrite Hraise.
      settle_outcome.
  - rewrite (read_package_unknown workout_type data Hswm Hrun Hwlk).
    settle_outcome.
Qed.

(** ** From the data to the instance and back *)

(** X5.  [read_package] stores the data as they come: the attributes of the
    instance it returns, in the order [__init__] assigns them, are the data,
    and its class is the one the code stands for.  Conversely every instance
    of one of the three subclasses is what [read_package] returns on some
    code and the attributes of that instance. *)
Theorem read_package_keeps_the_data :
  (forall workout_type data self,
     read_package workout_type data = Ok self ->
     map snd (vars self) = data
     /\ In (workout_type, class_name self)
          [("SWM", "Swimming"); ("RUN", "Running"); ("WLK", "SportsWalking")])
  /\ (forall self,
        class_name self <> "Training" ->
        exists workout_type,
          read_package workout_type (map snd (vars self)) = Ok self).
Proof.
  split.
  - intros workout_type data self Hread.
    destruct (string_dec workout_type "SWM") as [->|Hswm];
      [|destruct (string_dec workout_type "RUN") as [->|Hrun];
        [|destruct (string_dec workout_type "WLK") as [->|Hwlk]]].
    + change (read_package "SWM" data) with (call_Swimming data) in Hread.
      do 6 (try destruct data as [|? data]); try discriminate Hread.
      injection Hread as <-. split; [reflexivity|]. left. reflexivity.
    + change (read_package "RUN" data) with (call_Running data) in Hread.
      do 4 (try destruct data as [|? data]); try discriminate Hread.
      injection Hread as <-. split; [reflexivity|]. right. left. reflexivity.
    + change (read_package "WLK" data) with (call_SportsWalking data)
        in Hread.
      do 5 (try destruct data as [|? data]); try discriminate Hread.
      injection Hread as <-. split; [reflexivity|].
      right. right. left. reflexivity.
    + rewrite (read_package_unknown _ data Hswm Hrun Hwlk) in Hread.
      discriminate Hread.
  - intros self Hclass.
    destruct self as [a d w|a d w|a d w h|a d w lp cp].
    + exfalso. apply Hclass. reflexivity.
    + exists "RUN". reflexivity.
    + exists "WLK". reflexivity.
    + exists "SWM". reflexivity.
Qed.

(** X5 on the third sample package. *)
Lemma read_package_keeps_the_data_witness :
  let data := [PyInt 9000; PyInt 1; PyInt 75; PyInt 180] in
  let self := SportsWalking (PyInt 9000) (PyInt 1) (PyInt 75) (PyInt 180) in
  (map snd (vars self) = data
   /\ In ("WLK", class_name self)
        [("SWM", "Swimming"); ("RUN", "Running"); ("WLK", "SportsWalking")])
  /\ exists workout_type,
       read_package workout_type (map snd (vars self)) = Ok self.
Proof.
  intros data self. split.
  - apply (proj1 read_package_keeps_the_data "WLK" data self). reflexivity.
  - apply (proj2 read_package_keeps_the_data self). discriminate.
Defined.

(** ** The message of every summary *)

(** A summary that is returned carries the default template. *)
Lemma show_training_info_message
    (libm_pow : float -> float -> float) (self : training)
    (info : InfoMessage.t) :
  show_training_info libm_pow self = Ok info ->
  exists distance speed calories,
    info = InfoMessage.new (class_name self) (duration self)
             distance speed calories.
Proof.
  unfold show_training_info.
  destruct (get_distance self) as [distance|]; [|discriminate].
  rewrite bind_Ok. destruct (get_mean_speed self) as [speed|]; [|discriminate].
  rewrite bind_Ok.
  destruct (get_spent_calories libm_pow self) as [calories|]; [|discriminate].
  rewrite bind_Ok. intros H. injection H as <-. eauto.
Qed.

(** X6.  No workout has a rendered message: on every summary that
    [show_training_info] returns, whatever the class and the data,
    [get_message] raises [KeyError] for the name [self], which the template
    uses and [asdict] does not provide. *)
Theorem get_message_never_renders
    (libm_pow : float -> float -> float) (self : training)
    (info : InfoMessage.t) :
  show_training_info libm_pow self = Ok info ->
  InfoMessage.get_message info = Raise (KeyError "self").
Proof.
  intros Hinfo.
  destruct (show_training_info_message _ _ _ Hinfo)
    as (distance & speed & calories & ->).
  apply get_message_raises_KeyError.
Qed.

(** X6 on the first sample package. *)
Lemma get_message_never_renders_witness :
  InfoMessage.get_message
    (InfoMessage.new "Swimming" (PyInt 1) (PyFloat (720 * 1.38 / 1000))
       (PyFloat 1) (PyFloat 336)) = Raise (KeyError "self").
Proof.
  apply (get_message_never_renders exact_square
           (Swimming (PyInt 720) (PyInt 1) (PyInt 80) (PyInt 25)
              (PyInt 40))).
  vm_compute. reflexivity.
Defined.

(** ** The script *)

(** Whatever the workout, the line [main] prints is the template. *)
Lemma main_prints_the_template
    (libm_pow : float -> float -> float) (self : training) (line : string) :
  main libm_pow self = Ok line -> line = InfoMessage.default_message.
Proof.
  unfold main.
  destruct (show_training_info libm_pow self) as [info|] eqn:Hinfo;
    [|discriminate].
  rewrite bind_Ok. intros H. injection H as <-.
  destruct (show_training_info_message _ _ _ Hinfo) as (d & s & c & ->).
  reflexivity.
Qed.

(** X7.  Over any list of packages the script prints the same line, the
    unformatted template, once for each package it gets through; it gets
    through all of them exactly when no exception ends the run.  On the
    three packages of the module it prints the template three times. *)
Theorem run_packages_prints_only_the_template :
  (forall libm_pow pkgs,
     let out := fst (run_packages libm_pow pkgs) in
     out = repeat InfoMessage.default_message (length out)
     /\ (length out <= length pkgs)%nat
     /\ (snd (run_packages libm_pow pkgs) = None <->
         length out = length pkgs))
  /\ run_packages exact_square packages =
     (repeat InfoMessage.default_message 3, None).
Proof.
  split; [|vm_compute; reflexivity].
  intros libm_pow pkgs. induction pkgs as [|[workout_type data] rest IH].
  - simpl. repeat split; intros; reflexivity.
  - simpl in *.
    destruct (let* training := read_package workout_type data in
              main libm_pow training) as [line|e] eqn:Hline.
    + assert (Htemplate : line = InfoMessage.default_message).
      { destruct (read_package workout_type data) as [training|];
          [|discriminate].
        rewrite bind_Ok in Hline.
        exact (main_prints_the_template _ _ _ Hline). }
      subst line.
      destruct (run_packages libm_pow rest) as [out e]. simpl in *.
      destruct IH as (Hout & Hlen & Hnone).
      split; [f_equal; exact Hout|]. split; [lia|].
      split; intros H; [f_equal; apply Hnone; exact H|].
      apply Hnone. lia.
    + simpl. split; [reflexivity|]. split; [lia|].
      split; intros H; discriminate H.
Qed.

(** X8.  The script stops at the first package that raises: the lines of
    the packages before it are printed, the exception is the one of that
    package, and the packages after it have no effect. *)
Theorem run_packages_stops_at_the_first_exception
    (libm_pow : float -> float -> float)
    (before after : list (string * list number))
    (workout_type : string) (data : list number) (e : exn) :
  Forall (fun p : string * list number =>
            returns (let* training := read_package (fst p) (snd p) in
                     main libm_pow training) = true) before ->
  (let* training := read_package workout_type data in
   main libm_pow training) = Raise e ->
  run_packages libm_pow (before ++ (workout_type, data) :: after) =
  (repeat InfoMessage.default_message (length before), Some e).
Proof.
  intros Hbefore Hraise.
  induction before as [|[workout_type' data'] before IH]; simpl.
  - rewrite Hraise. reflexivity.
  - apply Forall_cons_iff in Hbefore. destruct Hbefore as [Hhead Htail].
    simpl in Hhead.
    destruct (let* training := read_package workout_type' data' in
              main libm_pow training) as [line|] eqn:Hline;
      [|discriminate Hhead].
    assert (Htemplate : line = InfoMessage.default_message).
    { destruct (read_package workout_type' data') as [training|];
        [|discriminate].
      rewrite bind_Ok in Hline.
      exact (main_prints_the_template _ _ _ Hline). }
    subst line. rewrite (IH Htail). reflexivity.
Qed.

(** X8 on the first sample package, an unknown code and the second sample
    package: one line, then the [ValueError]. *)
Lemma run_packages_stops_at_the_first_exception_witness :
  run_packages exact_square
    [ ("SWM", [PyInt 720; PyInt 1; PyInt 80; PyInt 25; PyInt 40]);
      ("XYZ", [PyInt 1; PyInt 1; PyInt 1]);
      ("RUN", [PyInt 15000; PyInt 1; PyInt 75]) ] =
  ([InfoMessage.default_message],
   Some (ValueError "Передан неверный идентификатор тренировки.")).
Proof.
  apply (run_packages_stops_at_the_first_exception exact_square
           [("SWM", [PyInt 720; PyInt 1; PyInt 80; PyInt 25; PyInt 40])]
           [("RUN", [PyInt 15000; PyInt 1; PyInt 75])]
           "XYZ" [PyInt 1; PyInt 1; PyInt 1]).
  - apply Forall_cons; [vm_compute; reflexivity|apply Forall_nil].
  - vm_compute. reflexivity.
Defined.

(** ** A workout without action *)

Lemma is_nan_Prim2SF (t : float) :
  is_nan t = false -> Prim2SF t <> S754_nan.
Proof.
  unfold is_nan. rewrite FloatAxioms.eqb_spec. intros Hnan Heq.
  rewrite Heq in Hnan. discriminate Hnan.
Qed.

(** Zero divided by a float that is neither zero nor NaN is zero. *)
Lemma zero_div_is_zero (d t : float) :
  (d =? 0)%float = true -> (t =? 0)%float = false -> is_nan t = false ->
  (d / t =? 0)%float = true.
Proof.
  intros Hd Ht Hnan. apply is_nan_Prim2SF in Hnan.
  rewrite FloatAxioms.eqb_spec in Ht. rewrite FloatAxioms.eqb_spec, div_spec.
  change (Prim2SF 0) with (S754_zero false) in *.
  destruct (float_eqb_zero d Hd) as [-> | ->];
    [change (Prim2SF 0) with (S754_zero false)
    |change (Prim2SF neg_zero) with (S754_zero true)];
    destruct (Prim2SF t) as [[|]|[|]| |[|] m e];
    try reflexivity; try discriminate Ht; contradiction.
Qed.

(** X9.  A workout whose action is zero has a distance of zero, in every
    class; with a duration that is neither zero nor NaN its mean speed is
    zero as well, unless it is a [Swimming] workout, whose mean speed does
    not look at the action. *)
Theorem zero_action_gives_zero_distance (self : training) :
  is_zero (action self) = true ->
  (exists d : float,
     get_distance self = Ok (PyFloat d) /\ (d =? 0)%float = true)
  /\ forall t : float,
       class_name self <> "Swimming" ->
       is_zero (duration self) = false ->
       CONVERT_TO_DOUBLE (duration self) = Ok t ->
       is_nan t = false ->
       exists v : float,
         get_mean_speed self = Ok (PyFloat v) /\ (v =? 0)%float = true.
Proof.
  intros Hz.
  assert (Hd : exists d : float,
             get_distance self = Ok (PyFloat d) /\ (d =? 0)%float = true).
  { rewrite get_distance_eq.
    destruct (is_zero_CONVERT_TO_DOUBLE _ Hz) as (a & -> & Ha).
    rewrite bind_Ok. eexists. split; [reflexivity|].
    destruct (float_eqb_zero a Ha) as [-> | ->];
      destruct self; reflexivity. }
  split; [exact Hd|].
  intros t Hclass Hzt Ht Hnan. destruct Hd as (d & Hd & Hd0).
  assert (Hgen : get_mean_speed self = Training_get_mean_speed self).
  { destruct self; try reflexivity. exfalso. apply Hclass. reflexivity. }
  exists (d / t)%float. split.
  - rewrite Hgen.
    apply Training_get_mean_speed_returns; [exact Hd|exact Ht|].
    exact (nonzero_CONVERT_TO_DOUBLE _ _ Hzt Ht).
  - apply zero_div_is_zero; [exact Hd0| |exact Hnan].
    exact (nonzero_CONVERT_TO_DOUBLE _ _ Hzt Ht).
Qed.

(** X9 on a run of one hour without a step. *)
Lemma zero_action_gives_zero_distance_witness :
  let self := Running (PyInt 0) (PyInt 1) (PyInt 75) in
  (exists d : float,
     get_distance self = Ok (PyFloat d) /\ (d =? 0)%float = true)
  /\ exists v : float,
       get_mean_speed self = Ok (PyFloat v) /\ (v =? 0)%float = true.
Proof.
  intros self.
  destruct (zero_action_gives_zero_distance self eq_refl) as [Hd Hv].
  split; [exact Hd|].
  apply (Hv 1%float); [discriminate|reflexivity|reflexivity|reflexivity].
Defined.

(** ** One distance and one speed for three classes *)

(** X10.  For the same action and duration a [Running], a [SportsWalking]
    and a plain [Training] instance have the same distance and the same mean
    speed, whatever their weights and heights: the three share the methods
    and the step.  [Swimming] shares neither result. *)
Theorem distance_and_speed_shared_by_three_classes :
  (forall action duration weight weight' weight'' height,
     get_distance (Running action duration weight) =
       get_distance (SportsWalking action duration weight' height)
     /\ get_distance (Running action duration weight) =
        get_distance (Training action duration weight'')
     /\ get_mean_speed (Running action duration weight) =
        get_mean_speed (SportsWalking action duration weight' height)
     /\ get_mean_speed (Running action duration weight) =
        get_mean_speed (Training action duration weight''))
  /\ (exists action duration weight lenght_pool count_pool,
        get_distance
          (Swimming action duration weight lenght_pool count_pool) <>
        get_distance (Running action duration weight)
        /\ get_mean_speed
             (Swimming action duration weight lenght_pool count_pool) <>
           get_mean_speed (Running action duration weight)).
Proof.
  split; [intros; repeat split|].
  exists (PyInt 720), (PyInt 1), (PyInt 80), (PyInt 25), (PyInt 40).
  split; intros Heq.
  - apply (f_equal (fun r => returns_float r (720 * 1.38 / 1000))) in Heq.
    vm_compute in Heq. discriminate.
  - apply (f_equal (fun r => returns_float r 1)) in Heq.
    vm_compute in Heq. discriminate.
Qed.

(** ** A message with a template of its own *)

(** X11.  The field [message] can be given to the constructor.  With a
    template that names the fields themselves, [get_message] returns the
    line: the type as it is and each of the four numbers under [.3f], in the
    order of the template.  (Floats here; an [int] is converted first.) *)
Theorem get_message_with_unprefixed_template
    (training_type : string) (duration distance speed calories : float) :
  InfoMessage.get_message
    (InfoMessage.Build training_type (PyFloat duration) (PyFloat distance)
       (PyFloat speed) (PyFloat calories)
       ("Тип тренировки {training_type}; Длительность: {duration:.3f} ч.; "
        ++ "Дистанция: {distance:.3f} км; Ср. скорость: {speed:.3f} км/ч; "
        ++ "Потрачено ккал: {calories:.3f}.")) =
  Ok ("Тип тренировки " ++ training_type
      ++ "; Длительность: " ++ format_float_3f duration
      ++ " ч.; Дистанция: " ++ format_float_3f distance
      ++ " км; Ср. скорость: " ++ format_float_3f speed
      ++ " км/ч; Потрачено ккал: " ++ format_float_3f calories ++ ".").
Proof.
  unfold InfoMessage.get_message, str_format. cbn -[format_float_3f append].
  reflexivity.
Qed.
